(** * rag-extension: the agent service (agent/service.go)

    A shallow embedding of [validPayload], [Service.generateCompletion] and
    [Service.ChatCompletion], with the Go standard library and the
    [embedding] / [copilot] packages as collaborators.

    Conventions.
    - A Go [[]byte] is a [list byte], a Go [string] is a [string]; the
      conversions [string(b)] and [[]byte(s)] are written out.
    - A Go [error] is an [option error]: [None] is [nil].
    - A Go call returning [(v, err)] returns the pair [(v, err)]; the
      value is whatever the callee left there when [err] is not [nil].
    - Every call that leaves the process (file system, network, the
      response writer) steps an abstract [World] and is recorded as an
      [Event], so that "is never invoked" and "is invoked once" are
      statements about the list of events of a run.
    - [fmt.Printf] / [fmt.Println] diagnostics go to standard output and
      are not modelled; neither is [context.Context] cancellation. *)

From Stdlib Require Import List String Ascii ZArith NArith Bool Lia.
From Stdlib Require Import Strings.Byte.
Import ListNotations.

Local Open Scope list_scope.

Infix "+++" := String.append (right associativity, at level 60).

Definition bytes : Type := list byte.

(** ** Go errors *)

(** [io.EOF], an error made by a library ([errors.New] and the like), and
    [fmt.Errorf("<msg>: %w", cause)], which keeps [cause] on the chain. *)
Inductive error : Type :=
| io_EOF
| errors_New (msg : string)
| fmt_Errorf_w (msg : string) (cause : error).

(** [errors.Is(err, io.EOF)]: walk the [%w] chain. *)
Fixpoint errors_Is_EOF (err : error) : bool :=
  match err with
  | io_EOF => true
  | errors_New _ => false
  | fmt_Errorf_w _ cause => errors_Is_EOF cause
  end.

Definition is_nil {A : Type} (o : option A) : bool :=
  match o with None => true | Some _ => false end.

(** ** validPayload *)

(** [asn1Signature]; the fields are [R] and [S] in the source ([S] is
    taken by [nat] here). *)
Record asn1Signature : Type := mk_asn1Signature {
  sig_R : Z;
  sig_S : Z
}.

(** The collaborators of [validPayload]: [encoding/base64],
    [encoding/asn1], [crypto/sha256] and [crypto/ecdsa]. *)
Class Crypto : Type := {
  PublicKey : Type;
  (** [base64.StdEncoding.DecodeString]. *)
  base64_DecodeString : string -> bytes * option error;
  (** [asn1.Unmarshal(b, &parsedSig)]: the filled-in structure, the
      unconsumed rest and the error. *)
  asn1_Unmarshal : bytes -> asn1Signature * bytes * option error;
  (** [sha256.Sum256]. *)
  sha256_Sum256 : bytes -> bytes;
  (** [ecdsa.Verify(pub, hash, r, s)]. *)
  ecdsa_Verify : PublicKey -> bytes -> Z -> Z -> bool
}.

Definition validPayload `{Crypto} (data : bytes) (sig : string) (publicKey : PublicKey)
  : bool * option error :=
  let '(asnSig, err) := base64_DecodeString sig in
  if negb (is_nil err) then (false, err)
  else
    let '(parsedSig, rest, err) := asn1_Unmarshal asnSig in
    if negb (is_nil err) || negb (Nat.eqb (List.length rest) 0) then (false, err)
    else
      (* Verify the SHA256 encoded payload against the signature *)
      let digest := sha256_Sum256 data in
      (ecdsa_Verify publicKey digest (sig_R parsedSig) (sig_S parsedSig), None).

(** ** The copilot package (types) *)

Record ChatMessage : Type := mk_ChatMessage {
  Role : string;
  Content : string
}.

Record ChatRequest : Type := mk_ChatRequest {
  Messages : list ChatMessage
}.

Definition Model : Type := string.
Definition ModelGPT4o : Model := "gpt-4o"%string.

Record ChatCompletionsRequest : Type := mk_ChatCompletionsRequest {
  CC_Messages : list ChatMessage;
  CC_Model : Model;
  CC_Stream : bool
}.

(** What [bufio.NewScanner(stream)] delivers: the tokens for which
    [Scan] answers true, then the value of [Err] once [Scan] has answered
    false.  A response body ends or breaks, so the tokens form a list. *)
Record Stream : Type := mk_Stream {
  stream_units : list bytes;
  stream_Err : option error
}.

(** ** Events and collaborators of the service *)

Inductive Event : Type :=
| EvReadDir (name : string)
| EvGenerateDatasets (integrationID apiToken : string) (filenames : list string)
| EvCreate (integrationID apiToken content : string)
| EvOpen (name : string)
| EvReadAll
| EvChatCompletions (integrationID apiToken : string) (req : ChatCompletionsRequest)
| EvClose
| EvWrite (buf : bytes) (n : nat) (err : option error)
| EvWriteHeader (statusCode : Z)
| EvUnmarshal (body : bytes).

Class Collaborators `{Crypto} : Type := {
  World : Type;
  (** [embedding.Dataset] (declared in the embedding package) and its
      [Filename] field; [[]float32] embeddings; [*os.File]. *)
  Dataset : Type;
  Dataset_Filename : Dataset -> string;
  Embedding : Type;
  File : Type;
  (** [os.ReadDir]: the [Name()] of every entry. *)
  os_ReadDir : string -> World -> (list string * option error) * World;
  filepath_Join : string -> string -> string;
  embedding_GenerateDatasets :
    string -> string -> list string -> World -> (list Dataset * option error) * World;
  embedding_Create :
    string -> string -> string -> World -> (Embedding * option error) * World;
  (** a pointer to the chosen dataset, [None] for the nil pointer *)
  embedding_FindBestDataset :
    list Dataset -> Embedding -> option Dataset * option error;
  os_Open : string -> World -> (File * option error) * World;
  io_ReadAll : File -> World -> (bytes * option error) * World;
  copilot_ChatCompletions :
    string -> string -> ChatCompletionsRequest -> World -> (Stream * option error) * World;
  stream_Close : Stream -> World -> World;
  (** the [io.Writer] / [http.ResponseWriter] of the request *)
  w_Write : bytes -> World -> (nat * option error) * World;
  w_WriteHeader : Z -> World -> World;
  (** [json.Unmarshal(body, &req)]; [req] stays nil on the JSON value
      null.  It is a pure function; the handler records when it runs. *)
  json_Unmarshal : bytes -> option ChatRequest * option error
}.

(** [Write] must return a non-nil error if it returns [n < len(p)]
    (package io). *)
Definition io_Writer_contract `{Collaborators} : Prop :=
  forall buf w n w', w_Write buf w = ((n, None), w') -> n = List.length buf.

(** ** The service and the monad of its methods *)

(** [datasetsInit] is the [done] flag of the [sync.Once]. *)
Record Service `{Collaborators} : Type := mk_Service {
  pubKey : PublicKey;
  datasets : list Dataset;
  datasetsInit : bool
}.

Definition NewService `{Collaborators} (pubKey : PublicKey) : Service :=
  {| pubKey := pubKey; datasets := []; datasetsInit := false |}.

Record Machine `{Collaborators} : Type := mk_Machine {
  service : Service;
  world : World
}.

(** How a Go function returning [error] ends: it returns nil (with a
    value for the code that follows), returns an error, or panics. *)
Inductive Res (A : Type) : Type :=
| Ok (a : A)
| Err (e : error)
| Panic.
Arguments Ok {A} a.
Arguments Err {A} e.
Arguments Panic {A}.

Section Monad.
Context `{Collaborators}.

Definition M (A : Type) : Type := Machine -> Res A * Machine * list Event.

Definition ret {A} (a : A) : M A := fun m => (Ok a, m, []).

Definition bind {A B} (c : M A) (k : A -> M B) : M B :=
  fun m =>
    match c m with
    | (Ok a, m1, t1) => let '(r, m2, t2) := k a m1 in (r, m2, t1 ++ t2)
    | (Err e, m1, t1) => (Err e, m1, t1)
    | (Panic, m1, t1) => (Panic, m1, t1)
    end.

(** [return err] *)
Definition fail {A} (e : error) : M A := fun m => (Err e, m, []).

Definition panic {A} : M A := fun m => (Panic, m, []).

(** A call that leaves the process. *)
Definition call {X} (f : World -> X * World) (ev : X -> Event) : M X :=
  fun m =>
    let '(x, w) := f (world m) in
    (Ok x, {| service := service m; world := w |}, [ev x]).

Definition get_service : M Service := fun m => (Ok (service m), m, []).

Definition set_service (s : Service) : M unit :=
  fun m => (Ok tt, {| service := s; world := world m |}, []).

(** The value of a call's [error] result, for [if err := f(); err != nil]. *)
Definition try {A} (c : M A) : M (option error) :=
  fun m =>
    match c m with
    | (Ok _, m1, t1) => (Ok None, m1, t1)
    | (Err e, m1, t1) => (Ok (Some e), m1, t1)
    | (Panic, m1, t1) => (Panic, m1, t1)
    end.

(** [defer fin()] around [c]. *)
Definition defer {A} (fin : M unit) (c : M A) : M A :=
  fun m =>
    let '(r, m1, t1) := c m in
    let '(_, m2, t2) := fin m1 in
    (r, m2, t1 ++ t2).

End Monad.

Declare Scope go_scope.
Delimit Scope go_scope with go.
Notation "x <- c ;; k" := (bind c (fun x => k))
  (at level 61, c at next level, right associativity) : go_scope.
Notation "' p <- c ;; k" := (bind c (fun x => let 'p := x in k))
  (at level 61, p pattern, c at next level, right associativity) : go_scope.
Notation "c ;; k" := (bind c (fun _ => k))
  (at level 61, right associativity) : go_scope.
Local Open Scope go_scope.

(** ** generateCompletion *)

Definition dquote : string := String (ascii_of_nat 34) EmptyString.
Definition newline : byte := x0a.

(** The raw string literal [lPrePrompt] (its last two characters are a
    backslash and an n: a raw literal has no escapes). *)
Definition lPrePrompt : string :=
"You are a senior Dynamics 365 Finance and Operations (D365 F&O) X++ developer assistant.
		Your role is to assist developers with:
		Writing, reviewing, and debugging X++ code.
		Designing and implementing Data Entities, Classes, Forms, Extensions, Reports, and Workflows.
		Helping with event handlers, Chain of Command (CoC), batch jobs, SysOperations framework, and custom services.
		Offering best practices on performance optimization, security development (like XDS policies), unit testing, and development patterns.
		Assisting with deployment, builds, and package management using LCS and Azure DevOps pipelines.

		You must:
		Write code that is clean, modular, and well-documented.
		Explain solutions step-by-step where necessary, assuming the user has an beginner to intermediate understanding of D365 F&O.
		Follow D365 F&O Microsoft official guidelines for extensions (never overlayer unless explicitly asked).
		When possible, recommend event handlers and extensions over customization.
		Help troubleshoot common errors in the build process and runtime, and suggest troubleshooting steps or possible causes.
		Suggest example X++ code snippets, SQL queries, or API call patterns related to D365 F&O when needed.
		Assume the environment is D365 F&O latest version (OneVersion) and uses Visual Studio 2022 as the development environment.

		Never guess. If unsure, suggest a next action or direct the user to proper Microsoft Docs references.
		Respond in a detailed, structured format, using headings, bullet points, and code blocks where applicable. 
		
		Use the following context when responding to a message.\n"%string.

Section GenerateCompletion.
Context `{Collaborators}.

(** [s.datasetsInit.Do(func() { ... })], and the value the closure left
    in the caller's [err].  The closure runs under the lock of the
    [sync.Once], and [Do] sets [done] when it returns. *)
Definition datasetsInit_Do (integrationID apiToken : string) : M (option error) :=
  s <- get_service ;;
  if datasetsInit s then ret None
  else
    '(files, err) <- call (os_ReadDir "data") (fun _ => EvReadDir "data") ;;
    match err with
    | Some e =>
        set_service {| pubKey := pubKey s; datasets := datasets s; datasetsInit := true |} ;;
        ret (Some (fmt_Errorf_w
               ("error reading files from " +++ dquote +++ "data" +++ dquote
                  +++ " directory: %w") e))
    | None =>
        let filenames := map (fun file => filepath_Join "data" file) files in
        '(ds, err) <- call (embedding_GenerateDatasets integrationID apiToken filenames)
                           (fun _ => EvGenerateDatasets integrationID apiToken filenames) ;;
        set_service {| pubKey := pubKey s; datasets := ds; datasetsInit := true |} ;;
        match err with
        | Some e => ret (Some (fmt_Errorf_w "error generating datasets: %w" e))
        | None => ret None
        end
    end.

Definition systemMessage (fileContents : bytes) : ChatMessage :=
  {| Role := "system";
     Content := lPrePrompt +++ "Context: " +++ string_of_list_byte fileContents |}.

(** The loop [for i := len(req.Messages) - 1; i >= 0; i--], over the
    messages from the last one down; its value is what the loop has
    appended to [messages] when it ends. *)
Fixpoint scanMessages (integrationID apiToken : string) (downward : list ChatMessage)
  : M (list ChatMessage) :=
  match downward with
  | [] => ret []
  | msg :: older =>
      if negb (String.eqb (Role msg) "user") then
        scanMessages integrationID apiToken older
      else if String.eqb (Content msg) "" then
        scanMessages integrationID apiToken older
      else
        '(emb, err) <- call (embedding_Create integrationID apiToken (Content msg))
                            (fun _ => EvCreate integrationID apiToken (Content msg)) ;;
        match err with
        | Some e => fail (fmt_Errorf_w "error creating embedding for user message: %w" e)
        | None =>
            s <- get_service ;;
            let '(dataset, err) := embedding_FindBestDataset (datasets s) emb in
            match err with
            | Some _ => fail (errors_New "error computing best dataset")
            | None =>
                match dataset with
                | None => ret []
                | Some dataset =>
                    '(file, err) <- call (os_Open (Dataset_Filename dataset))
                                         (fun _ => EvOpen (Dataset_Filename dataset)) ;;
                    match err with
                    | Some e => fail (fmt_Errorf_w "failed to open documents: %w" e)
                    | None =>
                        '(fileContents, err) <- call (io_ReadAll file) (fun _ => EvReadAll) ;;
                        match err with
                        | Some e => fail (fmt_Errorf_w "failed to read documents: %w" e)
                        | None => ret [systemMessage fileContents]
                        end
                    end
                end
            end
        end
  end.

Definition Write (buf : bytes) : M (nat * option error) :=
  call (w_Write buf) (fun r => EvWrite buf (fst r) (snd r)).

(** The loop [for reader.Scan()]. *)
Fixpoint relayUnits (units : list bytes) : M unit :=
  match units with
  | [] => ret tt
  | buf :: rest =>
      '(_, err) <- Write buf ;;
      match err with
      | Some e => fail (fmt_Errorf_w "failed to write to stream: %w" e)
      | None =>
          '(_, err) <- Write [newline] ;;
          match err with
          | Some e => fail (fmt_Errorf_w "failed to write delimiter to stream: %w" e)
          | None => relayUnits rest
          end
      end
  end.

(** From [reader := bufio.NewScanner(stream)] to the end of the function. *)
Definition relay (stream : Stream) : M unit :=
  relayUnits (stream_units stream) ;;
  match stream_Err stream with
  | Some e =>
      if errors_Is_EOF e then ret tt
      else fail (fmt_Errorf_w "failed to read from stream: %w" e)
  | None => ret tt
  end.

Definition generateCompletion (integrationID apiToken : string)
           (req : option ChatRequest) : M unit :=
  err <- datasetsInit_Do integrationID apiToken ;;
  match err with
  | Some e => fail e
  | None =>
      match req with
      | None => panic (* nil pointer dereference at req.Messages *)
      | Some req =>
          messages <- scanMessages integrationID apiToken (rev (Messages req)) ;;
          let messages := messages ++ Messages req in
          let chatReq := {| CC_Model := ModelGPT4o;
                            CC_Messages := messages;
                            CC_Stream := true |} in
          '(stream, err) <- call (copilot_ChatCompletions "copilot-chat" apiToken chatReq)
                                 (fun _ => EvChatCompletions "copilot-chat" apiToken chatReq) ;;
          match err with
          | Some e => fail (fmt_Errorf_w "failed to get chat completions stream: %w" e)
          | None =>
              defer (call (fun w => (tt, stream_Close stream w)) (fun _ => EvClose))
                    (relay stream)
          end
      end
  end.

End GenerateCompletion.

(** ** ChatCompletion *)

(** What the handler reads of the [*http.Request]: [r.Header.Get] (the
    empty string for a header that is absent) and [io.ReadAll(r.Body)]. *)
Record Request : Type := mk_Request {
  Header_Get : string -> string;
  Body : bytes * option error
}.

Definition StatusBadRequest : Z := 400.
Definition StatusUnauthorized : Z := 401.
Definition StatusInternalServerError : Z := 500.

Section ChatCompletion.
Context `{Collaborators}.

Definition WriteHeader (statusCode : Z) : M unit :=
  call (fun w => (tt, w_WriteHeader statusCode w)) (fun _ => EvWriteHeader statusCode).

(** [http.Error(w, msg, code)]: the status line, then the message and a
    newline as the body (the result of that write is dropped). *)
Definition http_Error (msg : string) (code : Z) : M unit :=
  WriteHeader code ;;
  Write (list_byte_of_string msg ++ [newline]) ;;
  ret tt.

Definition ChatCompletion (r : Request) : M unit :=
  let sig := Header_Get r "X-Github-Public-Key-Signature" in
  let '(body, err) := Body r in
  match err with
  | Some _ => WriteHeader StatusInternalServerError
  | None =>
      s <- get_service ;;
      let '(isValid, err) := validPayload body sig (pubKey s) in
      match err with
      | Some _ => WriteHeader StatusInternalServerError
      | None =>
          if negb isValid then
            http_Error "invalid payload signature" StatusUnauthorized
          else
            let apiToken := Header_Get r "X-GitHub-Token" in
            let integrationID := Header_Get r "Copilot-Integration-Id" in
            '(req, err) <- call (fun w => (json_Unmarshal body, w))
                                (fun _ => EvUnmarshal body) ;;
            match err with
            | Some _ => WriteHeader StatusBadRequest
            | None =>
                err <- try (generateCompletion integrationID apiToken req) ;;
                match err with
                | Some _ => WriteHeader StatusInternalServerError
                | None => ret tt
                end
            end
      end
  end.

End ChatCompletion.

(** ** What a run did, read off its events *)

Definition embed_calls (t : list Event) : list string :=
  flat_map (fun ev => match ev with EvCreate _ _ content => [content] | _ => [] end) t.

Definition chat_calls (t : list Event) : list ChatCompletionsRequest :=
  flat_map (fun ev => match ev with EvChatCompletions _ _ req => [req] | _ => [] end) t.

Definition build_calls (t : list Event) : list Event :=
  filter (fun ev => match ev with
                    | EvReadDir _ | EvGenerateDatasets _ _ _ => true
                    | _ => false end) t.

(** The bytes the caller has received: of every [Write], the [n] bytes
    it reports as written. *)
Definition written (t : list Event) : bytes :=
  flat_map (fun ev => match ev with EvWrite buf n _ => firstn n buf | _ => [] end) t.

Definition statuses (t : list Event) : list Z :=
  flat_map (fun ev => match ev with EvWriteHeader c => [c] | _ => [] end) t.

(** Every step but a write to the response: parsing the body, the
    build, an embedding, a document, the completion service. *)
Definition is_processing (ev : Event) : bool :=
  match ev with
  | EvWrite _ _ _ | EvWriteHeader _ => false
  | _ => true
  end.

(** ** Reference collaborators

    The theorems below hold for every instance of [Crypto] and
    [Collaborators].  The closed examples run on the instances of this
    part: the decoders follow [encoding/base64] and [encoding/asn1] on the
    shape of [asn1Signature]; the rest is a small scripted environment. *)

Module Base64.

Local Open Scope N_scope.

(** The standard alphabet: A-Z, a-z, 0-9, plus and slash. *)
Definition decodeMap (c : ascii) : option N :=
  let n := N_of_ascii c in
  if (65 <=? n) && (n <=? 90) then Some (n - 65)
  else if (97 <=? n) && (n <=? 122) then Some (n - 71)
  else if (48 <=? n) && (n <=? 57) then Some (n + 4)
  else if n =? 43 then Some 62
  else if n =? 47 then Some 63
  else None.

Definition byte_of_N (n : N) : byte :=
  match Byte.of_N (n mod 256) with Some b => b | None => x00 end.

Definition is_pad (c : ascii) : bool := (N_of_ascii c =? 61)%N.

(** The decoder skips carriage returns and line feeds. *)
Definition is_newline (c : ascii) : bool :=
  ((N_of_ascii c =? 10) || (N_of_ascii c =? 13))%N.

(** Four symbols give three bytes; the last quantum may end in one or
    two pad characters and nothing may follow it.  [None] is a
    [CorruptInputError]. *)
Fixpoint decodeQuanta (l : list ascii) : option bytes :=
  match l with
  | [] => Some []
  | c0 :: c1 :: c2 :: c3 :: rest =>
      match decodeMap c0, decodeMap c1 with
      | Some v0, Some v1 =>
          let b0 := byte_of_N (N.lor (N.shiftl v0 2) (N.shiftr v1 4)) in
          if is_pad c2 then
            if is_pad c3 then
              match rest with [] => Some [b0] | _ => None end
            else None
          else
            match decodeMap c2 with
            | None => None
            | Some v2 =>
                let b1 := byte_of_N (N.lor (N.shiftl (N.land v1 15) 4) (N.shiftr v2 2)) in
                if is_pad c3 then
                  match rest with [] => Some [b0; b1] | _ => None end
                else
                  match decodeMap c3 with
                  | None => None
                  | Some v3 =>
                      let b2 := byte_of_N (N.lor (N.shiftl (N.land v2 3) 6) v3) in
                      match decodeQuanta rest with
                      | Some tl => Some (b0 :: b1 :: b2 :: tl)
                      | None => None
                      end
                  end
            end
      | _, _ => None
      end
  | _ => None
  end%N.

Definition DecodeString (s : string) : bytes * option error :=
  match decodeQuanta (filter (fun c => negb (is_newline c)) (list_ascii_of_string s)) with
  | Some bs => (bs, None)
  | None => ([], Some (errors_New "illegal base64 data"))
  end.

End Base64.

Module Asn1.

Local Open Scope Z_scope.

Definition b2z (b : byte) : Z := Z.of_N (Byte.to_N b).

Record tagAndLength : Type := mk_tagAndLength {
  class : Z;
  tag : Z;
  length : Z;
  isCompound : bool
}.

Definition SyntaxError (msg : string) : error := errors_New ("asn1: syntax error: " +++ msg).
Definition StructuralError (msg : string) : error :=
  errors_New ("asn1: structure error: " +++ msg).

(** The length bytes of the long form, most significant first. *)
Fixpoint parseLongLength (numBytes : nat) (acc : Z) (bs : bytes) : (Z * bytes) + error :=
  match numBytes with
  | O => inl (acc, bs)
  | S n =>
      match bs with
      | [] => inr (SyntaxError "truncated tag or length")
      | b :: bs' =>
          if 2 ^ 23 <=? acc then inr (StructuralError "length too large")
          else
            let acc' := Z.lor (Z.shiftl acc 8) (b2z b) in
            if acc' =? 0 then inr (StructuralError "superfluous leading zeros in length")
            else parseLongLength n acc' bs'
      end
  end.

(** [parseTagAndLength], with the bytes that follow.  A tag in the
    high-tag-number form is 31 or more and matches neither SEQUENCE nor
    INTEGER, so the parse of a signature ends in an error there. *)
Definition parseTagAndLength (bs : bytes) : (tagAndLength * bytes) + error :=
  match bs with
  | [] => inr (errors_New "asn1: internal error in parseTagAndLength")
  | b :: bs1 =>
      let cls := Z.shiftr (b2z b) 6 in
      let compound := Z.land (b2z b) 32 =? 32 in
      let tg := Z.land (b2z b) 31 in
      if tg =? 31 then inr (StructuralError "tags don't match")
      else
        match bs1 with
        | [] => inr (SyntaxError "truncated tag or length")
        | l :: bs2 =>
            if Z.land (b2z l) 128 =? 0 then
              inl ({| class := cls; tag := tg; length := Z.land (b2z l) 127;
                      isCompound := compound |}, bs2)
            else
              let numBytes := Z.land (b2z l) 127 in
              if numBytes =? 0 then inr (SyntaxError "indefinite length found (not DER)")
              else
                match parseLongLength (Z.to_nat numBytes) 0 bs2 with
                | inr e => inr e
                | inl (len, bs3) =>
                    if len <? 128 then inr (StructuralError "non-minimal length")
                    else inl ({| class := cls; tag := tg; length := len;
                                 isCompound := compound |}, bs3)
                end
        end
  end.

Definition checkInteger (bs : bytes) : option error :=
  match bs with
  | [] => Some (StructuralError "empty integer")
  | [_] => None
  | b0 :: b1 :: _ =>
      if ((b2z b0 =? 0) && (Z.land (b2z b1) 128 =? 0))
         || ((b2z b0 =? 255) && (Z.land (b2z b1) 128 =? 128))
      then Some (StructuralError "integer not minimally-encoded")
      else None
  end.

Definition unsigned (bs : bytes) : Z :=
  fold_left (fun acc b => acc * 256 + b2z b) bs 0.

(** [parseBigInt]: big-endian two's complement. *)
Definition parseBigInt (bs : bytes) : Z * option error :=
  match checkInteger bs with
  | Some e => (0, Some e)
  | None =>
      match bs with
      | b0 :: _ =>
          if Z.land (b2z b0) 128 =? 128
          then (unsigned bs - 2 ^ (8 * Z.of_nat (List.length bs)), None)
          else (unsigned bs, None)
      | [] => (0, None)
      end
  end.

(** [parseField] on a field of type [*big.Int]: the value and the bytes
    after the field. *)
Definition parseIntegerField (bs : bytes) : (Z * bytes) + error :=
  match bs with
  | [] => inr (SyntaxError "sequence truncated")
  | _ =>
      match parseTagAndLength bs with
      | inr e => inr e
      | inl (t, after) =>
          if negb ((class t =? 0) && (tag t =? 2) && negb (isCompound t))
          then inr (StructuralError "tags don't match")
          else if Z.of_nat (List.length after) <? length t
          then inr (SyntaxError "data truncated")
          else
            let innerBytes := firstn (Z.to_nat (length t)) after in
            match parseBigInt innerBytes with
            | (_, Some e) => inr e
            | (v, None) => inl (v, skipn (Z.to_nat (length t)) after)
            end
      end
  end.

(** [asn1.Unmarshal(b, &parsedSig)]: a SEQUENCE holding the two
    INTEGERs; bytes that follow them inside the SEQUENCE are allowed,
    bytes after the SEQUENCE are the rest. *)
Definition Unmarshal (bs : bytes) : asn1Signature * bytes * option error :=
  let failed e := (mk_asn1Signature 0 0, [], Some e) in
  match bs with
  | [] => failed (SyntaxError "sequence truncated")
  | _ =>
      match parseTagAndLength bs with
      | inr e => failed e
      | inl (t, after) =>
          if negb ((class t =? 0) && (tag t =? 16) && isCompound t)
          then failed (StructuralError "tags don't match")
          else if Z.of_nat (List.length after) <? length t
          then failed (SyntaxError "data truncated")
          else
            let innerBytes := firstn (Z.to_nat (length t)) after in
            let rest := skipn (Z.to_nat (length t)) after in
            match parseIntegerField innerBytes with
            | inr e => failed e
            | inl (r, inner1) =>
                match parseIntegerField inner1 with
                | inr e => failed e
                | inl (s, _) => (mk_asn1Signature r s, rest, None)
                end
            end
      end
  end.

End Asn1.

(** The decoders above; a key is given by the signatures that verify
    under it, and the digest is left to that predicate. *)
Definition oracle_crypto : Crypto := {|
  PublicKey := bytes -> Z -> Z -> bool;
  base64_DecodeString := Base64.DecodeString;
  asn1_Unmarshal := Asn1.Unmarshal;
  sha256_Sum256 := fun data => data;
  ecdsa_Verify := fun pub hash r s => pub hash r s
|}.

(** A scripted environment: a directory listing, documents by path, the
    answer of the completion service, the write of the response that
    breaks (if any) and the JSON decoder.  Its world counts the writes
    to the response made so far. *)
Module Sim.

Record Config : Type := mk_Config {
  cfg_dir : list string * option error;
  cfg_files : list (string * bytes);
  cfg_stream : Stream;
  cfg_failing_write : option nat;
  cfg_json : bytes -> option ChatRequest * option error
}.

Definition Vector : Type := list Z.
Definition Doc : Type := (string * Vector)%type.

(** A stand-in for the embedding service (a black box from text to a
    vector of fixed length). *)
Definition embed (text : string) : Vector :=
  [Z.of_nat (String.length text); 1%Z].

Fixpoint lookup (name : string) (files : list (string * bytes)) : option bytes :=
  match files with
  | [] => None
  | (n, contents) :: rest => if String.eqb n name then Some contents else lookup name rest
  end.

(** Modelled from the spec: [embedding.GenerateDatasets] (the embedding
    package is not among the sources).  One dataset per document, in
    order, each with the embedding of the document; the first document
    that cannot be read fails the whole build. *)
Fixpoint GenerateDatasets (files : list (string * bytes)) (filenames : list string)
  : list Doc * option error :=
  match filenames with
  | [] => ([], None)
  | name :: rest =>
      match lookup name files with
      | None => ([], Some (errors_New ("open " +++ name +++ ": no such file or directory")))
      | Some contents =>
          match GenerateDatasets files rest with
          | (ds, None) => ((name, embed (string_of_list_byte contents)) :: ds, None)
          | (_, Some e) => ([], Some e)
          end
      end
  end.

Fixpoint dot (a b : Vector) : Z :=
  match a, b with
  | x :: a', y :: b' => (x * y + dot a' b')%Z
  | _, _ => 0%Z
  end.

Fixpoint argmax (corpus : list Doc) (query : Vector) (best : option (Doc * Z))
  : option Doc :=
  match corpus with
  | [] => option_map fst best
  | d :: rest =>
      let score := dot (snd d) query in
      match best with
      | Some (_, top) =>
          if (top <? score)%Z then argmax rest query (Some (d, score))
          else argmax rest query best
      | None => argmax rest query (Some (d, score))
      end
  end.

(** Modelled from the spec: [embedding.FindBestDataset] (the embedding
    package is not among the sources).  The dataset of maximum score,
    the earliest on a tie; none for an empty corpus; an error on a
    dimension mismatch.  The score is the dot product. *)
Definition FindBestDataset (corpus : list Doc) (query : Vector)
  : option Doc * option error :=
  if existsb (fun d => negb (Nat.eqb (List.length (snd d)) (List.length query))) corpus
  then (None, Some (errors_New "vector dimensions do not match"))
  else (argmax corpus query None, None).

Definition Write (cfg : Config) (buf : bytes) (w : nat) : (nat * option error) * nat :=
  match cfg_failing_write cfg with
  | Some k =>
      if Nat.eqb k w then ((O, Some (errors_New "write: broken pipe")), S w)
      else ((List.length buf, None), S w)
  | None => ((List.length buf, None), S w)
  end.

Definition collaborators (cfg : Config) : @Collaborators oracle_crypto := {|
  World := nat;
  Dataset := Doc;
  Dataset_Filename := fst;
  Embedding := Vector;
  File := bytes;
  os_ReadDir := fun _ w => (cfg_dir cfg, w);
  filepath_Join := fun dir name => dir +++ "/" +++ name;
  embedding_GenerateDatasets := fun _ _ filenames w =>
    (GenerateDatasets (cfg_files cfg) filenames, w);
  embedding_Create := fun _ _ content w => ((embed content, None), w);
  embedding_FindBestDataset := FindBestDataset;
  os_Open := fun name w =>
    match lookup name (cfg_files cfg) with
    | Some contents => ((contents, None), w)
    | None => (([], Some (errors_New ("open " +++ name +++ ": no such file or directory"))), w)
    end;
  io_ReadAll := fun file w => ((file, None), w);
  copilot_ChatCompletions := fun _ _ _ w => ((cfg_stream cfg, None), w);
  stream_Close := fun _ w => w;
  w_Write := Write cfg;
  w_WriteHeader := fun _ w => w;
  json_Unmarshal := cfg_json cfg
|}.

Definition bs (s : string) : bytes := list_byte_of_string s.

Definition user (content : string) : ChatMessage := {| Role := "user"; Content := content |}.
Definition assistant (content : string) : ChatMessage :=
  {| Role := "assistant"; Content := content |}.

(** The conversation of the spec's example. *)
Definition conversation : ChatRequest :=
  {| Messages := [user "a"; assistant "b"; user "c"] |}.

(** A stand-in for the JSON decoder: the JSON value null leaves [req]
    nil, an empty body is an error, any other body is taken for the
    conversation above. *)
Definition json : bytes -> option ChatRequest * option error :=
  fun body =>
    match body with
    | [] => (None, Some (errors_New "unexpected end of JSON input"))
    | _ =>
        if String.eqb (string_of_list_byte body) "null" then (None, None)
        else (Some conversation, None)
    end.

(** One document, a two-line answer from the completion service. *)
Definition one_document : Config := {|
  cfg_dir := (["batch.md"%string], None);
  cfg_files := [("data/batch.md"%string, bs "Batch Job Template")];
  cfg_stream := {| stream_units := [bs "data: one"; bs "data: two"]; stream_Err := None |};
  cfg_failing_write := None;
  cfg_json := json
|}.

(** The same, with no "data" directory. *)
Definition no_data_directory : Config := {|
  cfg_dir := ([], Some (errors_New "open data: no such file or directory"));
  cfg_files := [];
  cfg_stream := cfg_stream one_document;
  cfg_failing_write := None;
  cfg_json := json
|}.

(** The same as [one_document], the caller gone at the fourth write. *)
Definition caller_disconnects : Config := {|
  cfg_dir := cfg_dir one_document;
  cfg_files := cfg_files one_document;
  cfg_stream := cfg_stream one_document;
  cfg_failing_write := Some 3%nat;
  cfg_json := json
|}.

Definition reject_all : bytes -> Z -> Z -> bool := fun _ _ _ => false.
Definition accept_all : bytes -> Z -> Z -> bool := fun _ _ _ => true.

Definition start (cfg : Config) (key : bytes -> Z -> Z -> bool)
  : @Machine _ (collaborators cfg) :=
  {| service := @NewService _ (collaborators cfg) key; world := O |}.

End Sim.

(** ** Specification vocabulary *)

(** A message that can drive retrieval: role "user", content not empty. *)
Definition qualifies (msg : ChatMessage) : bool :=
  String.eqb (Role msg) "user" && negb (String.eqb (Content msg) "").

(** The most recent message with role "user" and non-empty content. *)
Definition latest_user_message (msgs : list ChatMessage) : option ChatMessage :=
  find qualifies (rev msgs).

Definition option_list {A : Type} (o : option A) : list A :=
  match o with Some a => [a] | None => [] end.

(** Every unit followed by one newline, in order. *)
Definition frame (units : list bytes) : bytes :=
  flat_map (fun u => u ++ [newline]) units.

(** The error of the first [Write] that reported one. *)
Fixpoint failed_write (t : list Event) : option error :=
  match t with
  | [] => None
  | EvWrite _ _ (Some e) :: _ => Some e
  | _ :: rest => failed_write rest
  end.

(** The retrieval steps: embedding a message, opening and reading a document. *)
Definition is_retrieval (ev : Event) : bool :=
  match ev with
  | EvCreate _ _ _ | EvOpen _ | EvReadAll => true
  | _ => false
  end.

(** The callers of the ensure-step, each with the credentials of its
    request, in the order in which the [sync.Once] serves them (its
    closure runs under a lock, and a caller that arrives during the build
    waits for it to end, so callers that race are served one after the
    other in some order).  The value is what each caller finds in its own
    [err] after [Do]. *)
Fixpoint callers `{Collaborators} (credentials : list (string * string))
  : M (list (option error)) :=
  match credentials with
  | [] => ret []
  | (integrationID, apiToken) :: later =>
      err <- datasetsInit_Do integrationID apiToken ;;
      errs <- callers later ;;
      ret (err :: errs)
  end.

(** The service once [Do] has run the closure. *)
Definition built `{Collaborators} (s : Service) (ds : list Dataset) : Service :=
  {| pubKey := pubKey s; datasets := ds; datasetsInit := true |}.

Definition readDirError (e : error) : error :=
  fmt_Errorf_w ("error reading files from " +++ dquote +++ "data" +++ dquote
                  +++ " directory: %w") e.

(** The signature header of a request. *)
Definition signature_of (r : Request) : string :=
  Header_Get r "X-Github-Public-Key-Signature".

(** ** Derived views of the code

    The same steps with the monad unfolded; each is proved equal to the
    code it unfolds ([scanMessages_qualifying], [relayUnits_step],
    [generateCompletion_run]). *)

(** What the loop does once it stands on a qualifying message. *)
Definition retrieve `{Collaborators} (integrationID apiToken : string)
           (msg : ChatMessage) : M (list ChatMessage) :=
  fun m =>
    let '((emb, err), w1) := embedding_Create integrationID apiToken (Content msg) (world m) in
    let m1 := {| service := service m; world := w1 |} in
    let ev1 := EvCreate integrationID apiToken (Content msg) in
    match err with
    | Some e =>
        (Err (fmt_Errorf_w "error creating embedding for user message: %w" e), m1, [ev1])
    | None =>
        match embedding_FindBestDataset (datasets (service m)) emb with
        | (_, Some _) => (Err (errors_New "error computing best dataset"), m1, [ev1])
        | (None, None) => (Ok [], m1, [ev1])
        | (Some d, None) =>
            let '((file, err), w2) := os_Open (Dataset_Filename d) w1 in
            let m2 := {| service := service m; world := w2 |} in
            let ev2 := EvOpen (Dataset_Filename d) in
            match err with
            | Some e => (Err (fmt_Errorf_w "failed to open documents: %w" e), m2, [ev1; ev2])
            | None =>
                let '((fileContents, err), w3) := io_ReadAll file w2 in
                let m3 := {| service := service m; world := w3 |} in
                match err with
                | Some e =>
                    (Err (fmt_Errorf_w "failed to read documents: %w" e), m3,
                     [ev1; ev2; EvReadAll])
                | None => (Ok [systemMessage fileContents], m3, [ev1; ev2; EvReadAll])
                end
            end
        end
    end.

Definition writeError (e : error) : error := fmt_Errorf_w "failed to write to stream: %w" e.
Definition delimiterError (e : error) : error :=
  fmt_Errorf_w "failed to write delimiter to stream: %w" e.
Definition readError (e : error) : error := fmt_Errorf_w "failed to read from stream: %w" e.

(** How the function ends once the loop is over without a failed write. *)
Definition end_of_stream (stream : Stream) : Res unit :=
  match stream_Err stream with
  | Some e => if errors_Is_EOF e then Ok tt else Err (readError e)
  | None => Ok tt
  end.

(** What a run of the relay shows, by the first failed write if any. *)
Definition relayed (units : list bytes) (done : Res unit) (r : Res unit) (t : list Event)
  : Prop :=
  match failed_write t with
  | None => r = done /\ written t = frame units
  | Some e =>
      (r = Err (writeError e) \/ r = Err (delimiterError e)) /\
      exists k partial rest,
        k < List.length units /\
        written t = frame (firstn k units) ++ partial /\
        nth k units [] ++ [newline] = partial ++ rest
  end.

Definition forwarded (req : ChatRequest) (context : list ChatMessage)
  : ChatCompletionsRequest :=
  {| CC_Messages := context ++ Messages req; CC_Model := ModelGPT4o; CC_Stream := true |}.

Definition streamError (e : error) : error :=
  fmt_Errorf_w "failed to get chat completions stream: %w" e.

(** From the call of the completion service to the end. *)
Definition forward `{Collaborators} (apiToken : string)
           (req : ChatRequest) (context : list ChatMessage) : M unit :=
  fun m =>
    let chatReq := forwarded req context in
    let ev := EvChatCompletions "copilot-chat" apiToken chatReq in
    let '((stream, err), w) :=
      copilot_ChatCompletions "copilot-chat" apiToken chatReq (world m) in
    let m1 := {| service := service m; world := w |} in
    match err with
    | Some e => (Err (streamError e), m1, [ev])
    | None =>
        let '(r, m2, t) := relay stream m1 in
        (r, {| service := service m2; world := stream_Close stream (world m2) |},
         ev :: t ++ [EvClose])
    end.

(** ** Concrete requests and runs *)

Module Scenario.

Import Sim.

(** No message with role "user" and content. *)
Definition no_user_conversation : ChatRequest :=
  {| Messages := [{| Role := "system"; Content := "s" |}; user ""; assistant "b"] |}.

(** Two requests, one after the other, of a process with no "data"
    directory. *)
Definition first_request :=
  @generateCompletion _ (collaborators no_data_directory) "id" "tok" (Some conversation)
    (start no_data_directory accept_all).

Definition second_request :=
  @generateCompletion _ (collaborators no_data_directory) "id" "tok" (Some conversation)
    (snd (fst first_request)).

(** Three callers of the ensure-step of that process. *)
Definition three_callers :=
  @callers _ (collaborators no_data_directory)
    [("id-1", "tok-1"); ("id-2", "tok-2"); ("id-3", "tok-3")]%string
    (start no_data_directory accept_all).

Definition headers (sig : string) (name : string) : string :=
  if String.eqb name "X-Github-Public-Key-Signature" then sig
  else if String.eqb name "X-GitHub-Token" then "tok"
  else if String.eqb name "Copilot-Integration-Id" then "id"
  else "".

Definition body : bytes := bs "{}".

(** A signature that is not base64. *)
Definition malformed_request : Request :=
  {| Header_Get := headers "not base64"; Body := (body, None) |}.

(** The DER encoding of the pair (1, 1): well-formed. *)
Definition wellformed_request : Request :=
  {| Header_Get := headers "MAYCAQECAQE="; Body := (body, None) |}.

(** The same signature over the JSON value null. *)
Definition null_request : Request :=
  {| Header_Get := headers "MAYCAQECAQE="; Body := (bs "null", None) |}.

End Scenario.

(** ** Vocabulary of the further properties *)

Definition integrationID_of (r : Request) : string := Header_Get r "Copilot-Integration-Id".
Definition apiToken_of (r : Request) : string := Header_Get r "X-GitHub-Token".

Definition generateError (e : error) : error :=
  fmt_Errorf_w "error generating datasets: %w" e.
Definition createError (e : error) : error :=
  fmt_Errorf_w "error creating embedding for user message: %w" e.
Definition selectError : error := errors_New "error computing best dataset".
Definition openError (e : error) : error := fmt_Errorf_w "failed to open documents: %w" e.
Definition loadError (e : error) : error := fmt_Errorf_w "failed to read documents: %w" e.

Definition is_write (ev : Event) : bool :=
  match ev with EvWrite _ _ _ => true | _ => false end.

Definition is_build (ev : Event) : bool :=
  match ev with EvReadDir _ | EvGenerateDatasets _ _ _ => true | _ => false end.

(** What a call that leaves the process is made with, for a request with
    the given integration id and token. *)
Definition made_with (integrationID apiToken : string) (ev : Event) : Prop :=
  match ev with
  | EvReadDir name => name = "data"%string
  | EvGenerateDatasets id tok _ | EvCreate id tok _ =>
      id = integrationID /\ tok = apiToken
  | EvChatCompletions id tok chatReq =>
      id = "copilot-chat"%string /\ tok = apiToken /\
      CC_Model chatReq = "gpt-4o"%string /\ CC_Stream chatReq = true
  | _ => True
  end.

(** The [Close] calls of a run. *)
Definition closes (t : list Event) : list Event :=
  filter (fun ev => match ev with EvClose => true | _ => false end) t.

(** The buffers handed to [Write], in order. *)
Definition write_buffers (t : list Event) : list bytes :=
  flat_map (fun ev => match ev with EvWrite buf _ _ => [buf] | _ => [] end) t.

(** What the relay hands to [Write] when nothing fails: every unit, then
    a buffer of one newline. *)
Definition unit_then_newline (units : list bytes) : list bytes :=
  flat_map (fun u => [u; [newline]]) units.

(** ** The paths of generateCompletion

    Every run of [generateCompletion] takes one of five paths
    ([generateCompletion_path]); the events of its phases are of one
    kind each. *)

(** An event of the build, made with the given credentials. *)
Definition build_of (integrationID apiToken : string) (ev : Event) : Prop :=
  match ev with
  | EvReadDir name => name = "data"%string
  | EvGenerateDatasets id tok _ => id = integrationID /\ tok = apiToken
  | _ => False
  end.

(** An event of the retrieval, made with the given credentials. *)
Definition retrieval_of (integrationID apiToken : string) (ev : Event) : Prop :=
  match ev with
  | EvCreate id tok _ => id = integrationID /\ tok = apiToken
  | EvOpen _ | EvReadAll => True
  | _ => False
  end.

Definition ensure_error (e : error) : Prop :=
  exists c, e = readDirError c \/ e = generateError c.

Definition retrieval_error (e : error) : Prop :=
  (exists c, e = createError c) \/ e = selectError \/
  (exists c, e = openError c) \/ (exists c, e = loadError c).

Definition write_error (e : error) : Prop :=
  exists c, e = writeError c \/ e = delimiterError c.

Definition relay_error (e : error) : Prop :=
  write_error e \/ exists c, e = readError c /\ errors_Is_EOF c = false.

(** What the loop over the messages can have put in front. *)
Definition injected (context : list ChatMessage) : Prop :=
  context = [] \/ exists fileContents, context = [systemMessage fileContents].

Inductive path (integrationID apiToken : string) (req : option ChatRequest)
          (built_events : list Event) (err : option error)
  : Res unit -> list Event -> Prop :=
| path_ensure_failed e :
    err = Some e -> ensure_error e ->
    path integrationID apiToken req built_events err (Err e) built_events
| path_nil_request :
    err = None -> req = None ->
    path integrationID apiToken req built_events err Panic built_events
| path_retrieval_failed rq t2 e :
    err = None -> req = Some rq ->
    Forall (retrieval_of integrationID apiToken) t2 ->
    retrieval_error e ->
    path integrationID apiToken req built_events err (Err e) (built_events ++ t2)
| path_stream_failed rq t2 context c :
    err = None -> req = Some rq ->
    Forall (retrieval_of integrationID apiToken) t2 ->
    injected context ->
    path integrationID apiToken req built_events err (Err (streamError c))
         (built_events ++ t2
            ++ [EvChatCompletions "copilot-chat" apiToken (forwarded rq context)])
| path_relayed rq t2 context tw r :
    err = None -> req = Some rq ->
    Forall (retrieval_of integrationID apiToken) t2 ->
    injected context ->
    Forall (fun ev => is_write ev = true) tw ->
    (r = Ok tt /\ failed_write tw = None \/ exists e, r = Err e /\ relay_error e) ->
    path integrationID apiToken req built_events err r
         (built_events ++ t2
            ++ EvChatCompletions "copilot-chat" apiToken (forwarded rq context)
            :: tw ++ [EvClose]).

(** An observer of a run is empty, or the identity, on events of one kind. *)
Ltac by_kind :=
  let Hk := fresh "Hk" in
  let IH := fresh "IH" in
  intros Hk; induction Hk as [|?ev ?t ?Hev _ IH]; [reflexivity|];
  match goal with ev : Event |- _ => destruct ev end;
  cbn in *; try contradiction; try discriminate; try (f_equal; exact IH); try exact IH.

(** ** The data document (data/batch job template)

    The X++ data contract [sunSimpleContract] of the document: two private
    fields behind parm methods whose parameter defaults to the field, so
    that a call without argument reads and a call with one writes. *)
Module SunSimple.

Local Open Scope Z_scope.

Record sunSimpleContract : Type := mk_sunSimpleContract {
  gWaitTime : Z;
  gInfoText : string
}.

(** A new instance: the fields hold the default of their type. *)
Definition new : sunSimpleContract := {| gWaitTime := 0; gInfoText := "" |}.

(** [parmWaitTime(int _waitTime = gWaitTime)]. *)
Definition parmWaitTime (_waitTime : option Z) (c : sunSimpleContract)
  : Z * sunSimpleContract :=
  let _waitTime := match _waitTime with Some v => v | None => gWaitTime c end in
  let g := if 20000 <? _waitTime then 20000 else _waitTime in
  (g, {| gWaitTime := g; gInfoText := gInfoText c |}).

(** [parmInfoText(str _infoText = gInfoText)]. *)
Definition parmInfoText (_infoText : option string) (c : sunSimpleContract)
  : string * sunSimpleContract :=
  let _infoText := match _infoText with Some v => v | None => gInfoText c end in
  (_infoText, {| gWaitTime := gWaitTime c; gInfoText := _infoText |}).

Definition initialize (c : sunSimpleContract) : sunSimpleContract :=
  {| gWaitTime := 5000; gInfoText := "Default job text" |}.

(** A call on the contract, and a sequence of calls. *)
Inductive invocation : Type :=
| ParmWaitTime (_waitTime : option Z)
| ParmInfoText (_infoText : option string)
| Initialize.

Definition perform (c : sunSimpleContract) (op : invocation) : sunSimpleContract :=
  match op with
  | ParmWaitTime a => snd (parmWaitTime a c)
  | ParmInfoText a => snd (parmInfoText a c)
  | Initialize => initialize c
  end.

Definition performAll (ops : list invocation) (c : sunSimpleContract)
  : sunSimpleContract :=
  fold_left perform ops c.

End SunSimple.

(** ** More scripted environments and requests *)

Module Cover.

Import Sim.

(** A "data" directory with no entry. *)
Definition empty_directory : Config := {|
  cfg_dir := ([], None);
  cfg_files := [];
  cfg_stream := cfg_stream one_document;
  cfg_failing_write := None;
  cfg_json := json
|}.

(** A directory entry whose document cannot be read. *)
Definition unreadable_document : Config := {|
  cfg_dir := (["ghost.md"%string], None);
  cfg_files := [];
  cfg_stream := cfg_stream one_document;
  cfg_failing_write := None;
  cfg_json := json
|}.

(** The signature verifies (under [accept_all]) and the body is empty. *)
Definition empty_body_request : Request :=
  {| Header_Get := Scenario.headers "MAYCAQECAQE="; Body := ([], None) |}.

(** The machine of [one_document] after a first accepted request. *)
Definition warm : @Machine _ (collaborators one_document) :=
  snd (fst (@ChatCompletion _ (collaborators one_document) Scenario.wellformed_request
              (start one_document accept_all))).

(** Two directory entries, the second without a document behind it. *)
Definition half_readable : Config := {|
  cfg_dir := (["batch.md"%string; "ghost.md"%string], None);
  cfg_files := cfg_files one_document;
  cfg_stream := cfg_stream one_document;
  cfg_failing_write := None;
  cfg_json := json
|}.

(** A build that hands back what it has made when it fails: the datasets
    of the documents before the first one that cannot be read, beside the
    error (a Go function may return both). *)
Fixpoint GenerateDatasets_so_far (files : list (string * bytes)) (filenames : list string)
  : list Doc * option error :=
  match filenames with
  | [] => ([], None)
  | name :: rest =>
      match lookup name files with
      | None => ([], Some (errors_New ("open " +++ name +++ ": no such file or directory")))
      | Some contents =>
          let '(ds, err) := GenerateDatasets_so_far files rest in
          ((name, embed (string_of_list_byte contents)) :: ds, err)
      end
  end.

(** The environment of [cfg], its build replaced by the one above. *)
Definition keeps_partial_build (cfg : Config) : @Collaborators oracle_crypto := {|
  World := nat;
  Dataset := Doc;
  Dataset_Filename := fst;
  Embedding := Vector;
  File := bytes;
  os_ReadDir := @os_ReadDir _ (collaborators cfg);
  filepath_Join := @filepath_Join _ (collaborators cfg);
  embedding_GenerateDatasets := fun _ _ filenames w =>
    (GenerateDatasets_so_far (cfg_files cfg) filenames, w);
  embedding_Create := @embedding_Create _ (collaborators cfg);
  embedding_FindBestDataset := FindBestDataset;
  os_Open := @os_Open _ (collaborators cfg);
  io_ReadAll := @io_ReadAll _ (collaborators cfg);
  copilot_ChatCompletions := @copilot_ChatCompletions _ (collaborators cfg);
  stream_Close := @stream_Close _ (collaborators cfg);
  w_Write := @w_Write _ (collaborators cfg);
  w_WriteHeader := @w_WriteHeader _ (collaborators cfg);
  json_Unmarshal := @json_Unmarshal _ (collaborators cfg)
|}.

(** The dataset of the one readable document. *)
Definition batch_dataset : Doc :=
  ("data/batch.md"%string, embed "Batch Job Template").

(** A fresh service in that environment, and the same service after a
    build that failed on the second document. *)
Definition fresh_partial : @Machine _ (keeps_partial_build half_readable) :=
  @mk_Machine _ (keeps_partial_build half_readable)
    (@NewService _ (keeps_partial_build half_readable) accept_all) 0.

Definition after_partial_build : @Machine _ (keeps_partial_build half_readable) :=
  @mk_Machine _ (keeps_partial_build half_readable)
    (@mk_Service _ (keeps_partial_build half_readable) accept_all [batch_dataset] true) 0.

End Cover.

(** ** validPayload, its key a pointer

    In the source [publicKey] is a [*ecdsa.PublicKey], and nothing between
    [NewService] and [validPayload] tests it against nil.  Here the pointer
    is an [option]: [None] is nil.  [validPayload] does one thing with the
    key: it hands it to [ecdsa.Verify], which reads the curve through it;
    with a nil key that is a nil dereference, the one panic of the
    function.  The releases of the library differ in one point: the later
    ones answer false for an R or an S that is not positive before they
    read the key, the earlier ones read the key first; [signs_first] says
    which. *)

(** How a Go function with no [error] of its own to return ends. *)
Inductive Outcome (A : Type) : Type :=
| Returned (a : A)
| Panicked.
Arguments Returned {A} a.
Arguments Panicked {A}.

(** [ecdsa.Verify(pub, hash, r, s)], [pub] a pointer. *)
Definition ecdsa_Verify_ptr `{Crypto} (signs_first : bool) (pub : option PublicKey)
  (hash : bytes) (r s : Z) : Outcome bool :=
  match pub with
  | Some key => Returned (ecdsa_Verify key hash r s)
  | None =>
      if signs_first && ((r <=? 0)%Z || (s <=? 0)%Z) then Returned false
      else Panicked
  end.

(** [validPayload], line by line as above, [publicKey] a pointer. *)
Definition validPayload_ptr `{Crypto} (signs_first : bool)
  (data : bytes) (sig : string) (publicKey : option PublicKey)
  : Outcome (bool * option error) :=
  let '(asnSig, err) := base64_DecodeString sig in
  if negb (is_nil err) then Returned (false, err)
  else
    let '(parsedSig, rest, err) := asn1_Unmarshal asnSig in
    if negb (is_nil err) || negb (Nat.eqb (List.length rest) 0) then Returned (false, err)
    else
      let digest := sha256_Sum256 data in
      match ecdsa_Verify_ptr signs_first publicKey digest
              (sig_R parsedSig) (sig_S parsedSig) with
      | Returned ok => Returned (ok, None)
      | Panicked => Panicked
      end.

(** The nil key, for the two decoders of [oracle_crypto]. *)
Definition nil_key : option (@PublicKey oracle_crypto) := None.

(** * Theorems *)

(** ** validPayload *)

Section ValidPayloadFacts.
Context `{Crypto}.
Variables (data : bytes) (sig : string) (publicKey : PublicKey).

Lemma validPayload_base64_error asnSig e :
  base64_DecodeString sig = (asnSig, Some e) ->
  validPayload data sig publicKey = (false, Some e).
Proof. intros Hb. unfold validPayload. rewrite Hb. reflexivity. Qed.

Lemma validPayload_asn1_error asnSig parsedSig rest e :
  base64_DecodeString sig = (asnSig, None) ->
  asn1_Unmarshal asnSig = (parsedSig, rest, Some e) ->
  validPayload data sig publicKey = (false, Some e).
Proof. intros Hb Ha. unfold validPayload. rewrite Hb; simpl. rewrite Ha. reflexivity. Qed.

Lemma validPayload_trailing_bytes asnSig parsedSig rest :
  base64_DecodeString sig = (asnSig, None) ->
  asn1_Unmarshal asnSig = (parsedSig, rest, None) ->
  rest <> [] ->
  validPayload data sig publicKey = (false, None).
Proof.
  intros Hb Ha Hrest. unfold validPayload. rewrite Hb; simpl. rewrite Ha; simpl.
  destruct rest as [|b rest]; [contradiction|reflexivity].
Qed.

Lemma validPayload_verified asnSig parsedSig :
  base64_DecodeString sig = (asnSig, None) ->
  asn1_Unmarshal asnSig = (parsedSig, [], None) ->
  validPayload data sig publicKey =
  (ecdsa_Verify publicKey (sha256_Sum256 data) (sig_R parsedSig) (sig_S parsedSig), None).
Proof. intros Hb Ha. unfold validPayload. rewrite Hb; simpl. rewrite Ha. reflexivity. Qed.

(** An error comes from one of the two decoders, and comes with false. *)
Lemma validPayload_error_inv b e :
  validPayload data sig publicKey = (b, Some e) ->
  b = false /\
  ((exists asnSig, base64_DecodeString sig = (asnSig, Some e)) \/
   (exists asnSig parsedSig rest,
       base64_DecodeString sig = (asnSig, None) /\
       asn1_Unmarshal asnSig = (parsedSig, rest, Some e))).
Proof.
  unfold validPayload.
  destruct (base64_DecodeString sig) as [asnSig [e1|]] eqn:Hb; simpl.
  - intros Heq; inversion Heq; subst. split; [reflexivity|left; eauto].
  - destruct (asn1_Unmarshal asnSig) as [[parsedSig rest] [e2|]] eqn:Ha; simpl.
    + intros Heq; inversion Heq; subst. split; [reflexivity|right; eauto].
    + destruct (Nat.eqb (List.length rest) 0); simpl; discriminate.
Qed.


(** With a nil key and a signature that one of the decoders refuses, or
    that leaves bytes over, the key is never reached. *)
Lemma validPayload_ptr_nil_undecoded signs_first :
  (forall asnSig parsedSig,
      base64_DecodeString sig = (asnSig, None) ->
      asn1_Unmarshal asnSig <> (parsedSig, [], None)) ->
  exists e, validPayload_ptr signs_first data sig None = Returned (false, e).
Proof.
  intros Hnot. unfold validPayload_ptr.
  destruct (base64_DecodeString sig) as [asnSig [e1|]] eqn:Hb; simpl; [eauto|].
  destruct (asn1_Unmarshal asnSig) as [[parsedSig rest] [e2|]] eqn:Ha; simpl; [eauto|].
  destruct rest as [|b rest]; simpl; [|eauto].
  exfalso. exact (Hnot asnSig parsedSig eq_refl Ha).
Qed.

(** With a nil key and a signature of positive R and S that decodes with
    nothing left over, [ecdsa.Verify] dereferences the key. *)
Lemma validPayload_ptr_nil_panics signs_first asnSig parsedSig :
  base64_DecodeString sig = (asnSig, None) ->
  asn1_Unmarshal asnSig = (parsedSig, [], None) ->
  (0 < sig_R parsedSig)%Z -> (0 < sig_S parsedSig)%Z ->
  validPayload_ptr signs_first data sig None = Panicked.
Proof.
  intros Hb Ha HR HS. unfold validPayload_ptr. rewrite Hb; simpl. rewrite Ha; simpl.
  destruct (Z.leb_spec (sig_R parsedSig) 0) as [Hle|_]; [lia|].
  destruct (Z.leb_spec (sig_S parsedSig) 0) as [Hle|_]; [lia|].
  rewrite andb_false_r. reflexivity.
Qed.

End ValidPayloadFacts.


(** C2, at the signature "MAYCAQECAQEA": base64 of the DER bytes
    30 06 02 01 01 02 01 01 (a SEQUENCE of the INTEGERs 1 and 1) and one
    more byte 00.  Both decoders succeed, one byte is left over, and
    [validPayload] answers false with a nil error. *)
Theorem validPayload_trailing_byte_nil_error :
  forall data key,
    Base64.DecodeString "MAYCAQECAQEA"
    = ([x30; x06; x02; x01; x01; x02; x01; x01; x00], None) /\
    Asn1.Unmarshal [x30; x06; x02; x01; x01; x02; x01; x01; x00]
    = (mk_asn1Signature 1 1, [x00], None) /\
    @validPayload oracle_crypto data "MAYCAQECAQEA" key = (false, None).
Proof.
  intros data key. split; [reflexivity|]. split; [reflexivity|].
  apply (@validPayload_trailing_bytes oracle_crypto data "MAYCAQECAQEA" key
           [x30; x06; x02; x01; x01; x02; x01; x01; x00] (mk_asn1Signature 1 1) [x00]);
    [reflexivity | reflexivity | discriminate].
Qed.

(** ** The ensure-step *)

Section EnsureStep.
Context `{Collaborators}.
Variables (integrationID apiToken : string).

(** Once [done] is set, [Do] returns at once: no event, the machine as it
    was, and nil in the caller's [err]. *)
Lemma datasetsInit_Do_done m :
  datasetsInit (service m) = true ->
  datasetsInit_Do integrationID apiToken m = (Ok None, m, []).
Proof.
  intros Hd. unfold datasetsInit_Do, bind, get_service, ret. rewrite Hd. reflexivity.
Qed.

Lemma datasetsInit_Do_ReadDir_error m files e w :
  datasetsInit (service m) = false ->
  os_ReadDir "data" (world m) = ((files, Some e), w) ->
  datasetsInit_Do integrationID apiToken m
  = (Ok (Some (readDirError e)),
     {| service := built (service m) (datasets (service m)); world := w |},
     [EvReadDir "data"]).
Proof.
  intros Hd Hr. unfold datasetsInit_Do, bind, get_service, set_service, call, ret.
  rewrite Hd, Hr. reflexivity.
Qed.

Lemma datasetsInit_Do_build m files w ds err w' :
  datasetsInit (service m) = false ->
  os_ReadDir "data" (world m) = ((files, None), w) ->
  embedding_GenerateDatasets integrationID apiToken
    (map (fun file => filepath_Join "data" file) files) w = ((ds, err), w') ->
  datasetsInit_Do integrationID apiToken m
  = (Ok (option_map (fmt_Errorf_w "error generating datasets: %w") err),
     {| service := built (service m) ds; world := w' |},
     [EvReadDir "data";
      EvGenerateDatasets integrationID apiToken
        (map (fun file => filepath_Join "data" file) files)]).
Proof.
  intros Hd Hr Hg. unfold datasetsInit_Do, bind, get_service, set_service, call, ret.
  rewrite Hd, Hr. cbn. rewrite Hg. destruct err; reflexivity.
Qed.

(** [Do] always returns, with [done] set, and its events are those of
    the build. *)
Lemma datasetsInit_Do_returns m :
  exists err m' t,
    datasetsInit_Do integrationID apiToken m = (Ok err, m', t) /\
    datasetsInit (service m') = true /\
    pubKey (service m') = pubKey (service m) /\
    build_calls t = t.
Proof.
  destruct (datasetsInit (service m)) eqn:Hd.
  - exists None, m, []. rewrite datasetsInit_Do_done by assumption. auto.
  - destruct (os_ReadDir "data" (world m)) as [[files [e|]] w] eqn:Hr.
    + eexists _, _, _. rewrite (datasetsInit_Do_ReadDir_error _ _ _ _ Hd Hr).
      repeat split; reflexivity.
    + destruct (embedding_GenerateDatasets integrationID apiToken
                  (map (fun file => filepath_Join "data" file) files) w)
        as [[ds err] w'] eqn:Hg.
      eexists _, _, _. rewrite (datasetsInit_Do_build _ _ _ _ _ _ Hd Hr Hg).
      repeat split; reflexivity.
Qed.

End EnsureStep.

Section Callers.
Context `{Collaborators}.

Lemma callers_done credentials m :
  datasetsInit (service m) = true ->
  callers credentials m = (Ok (repeat None (List.length credentials)), m, []).
Proof.
  intros Hd. induction credentials as [|[id tok] later IH]; [reflexivity|].
  cbn [callers]. unfold bind at 1. rewrite (datasetsInit_Do_done id tok m Hd).
  unfold bind at 1. rewrite IH. reflexivity.
Qed.

(** Whatever the first caller gets, the build has run with it, and every
    later caller gets nil. *)
Lemma callers_first integrationID apiToken later m :
  exists err m' t,
    datasetsInit_Do integrationID apiToken m = (Ok err, m', t) /\
    callers ((integrationID, apiToken) :: later) m
    = (Ok (err :: repeat None (List.length later)), m', t).
Proof.
  destruct (datasetsInit_Do_returns integrationID apiToken m)
    as (err & m' & t & Hrun & Hd & _ & _).
  exists err, m', t. split; [exact Hrun|].
  cbn [callers]. unfold bind at 1. rewrite Hrun.
  unfold bind at 1. rewrite (callers_done later m' Hd). cbn. rewrite app_nil_r. reflexivity.
Qed.

(** X13: the build runs once for any number of callers, with the
    credentials of the first: one directory enumeration, at most one
    dataset generation, and one outcome per caller. *)
Lemma callers_build_once integrationID apiToken later m :
  datasetsInit (service m) = false ->
  exists errs m' t,
    callers ((integrationID, apiToken) :: later) m = (Ok errs, m', t) /\
    List.length errs = S (List.length later) /\
    (t = [EvReadDir "data"] \/
     exists filenames,
       t = [EvReadDir "data"; EvGenerateDatasets integrationID apiToken filenames]).
Proof.
  intros Hd0.
  destruct (callers_first integrationID apiToken later m)
    as (err & m' & t & Hrun & Hcall).
  exists (err :: repeat None (List.length later)), m', t.
  split; [exact Hcall|]. split; [cbn; rewrite repeat_length; reflexivity|].
  destruct (os_ReadDir "data" (world m)) as [[files [e|]] w] eqn:Hr.
  - rewrite (datasetsInit_Do_ReadDir_error _ _ _ _ _ _ Hd0 Hr) in Hrun.
    inversion Hrun; subst. left. reflexivity.
  - destruct (embedding_GenerateDatasets integrationID apiToken
                (map (fun file => filepath_Join "data" file) files) w)
      as [[ds gerr] w'] eqn:Hg.
    rewrite (datasetsInit_Do_build _ _ _ _ _ _ _ _ Hd0 Hr Hg) in Hrun.
    inversion Hrun; subst. right. eauto.
Qed.

(** X14: when the build succeeds, every caller gets nil and the corpus
    of the first caller's build is the corpus after all of them. *)
Lemma callers_share_the_corpus integrationID apiToken later m files w ds w' :
  datasetsInit (service m) = false ->
  os_ReadDir "data" (world m) = ((files, None), w) ->
  embedding_GenerateDatasets integrationID apiToken
    (map (fun file => filepath_Join "data" file) files) w = ((ds, None), w') ->
  exists m' t,
    callers ((integrationID, apiToken) :: later) m
    = (Ok (repeat None (S (List.length later))), m', t) /\
    datasets (service m') = ds.
Proof.
  intros Hd0 Hr Hg.
  destruct (callers_first integrationID apiToken later m)
    as (err & m' & t & Hrun & Hcall).
  rewrite (datasetsInit_Do_build _ _ _ _ _ _ _ _ Hd0 Hr Hg) in Hrun.
  inversion Hrun; subst. eexists _, _. split; [exact Hcall|reflexivity].
Qed.

End Callers.

(** ** The scan of the conversation *)

Section Retrieval.
Context `{Collaborators}.
Variables (integrationID apiToken : string).

Lemma scanMessages_skip msg older :
  qualifies msg = false ->
  scanMessages integrationID apiToken (msg :: older)
  = scanMessages integrationID apiToken older.
Proof.
  unfold qualifies. intros Hq. cbn [scanMessages].
  destruct (String.eqb (Role msg) "user"); cbn in *; [|reflexivity].
  destruct (String.eqb (Content msg) ""); cbn in *; [reflexivity|discriminate].
Qed.

Lemma scanMessages_qualifying msg older m :
  qualifies msg = true ->
  scanMessages integrationID apiToken (msg :: older) m
  = retrieve integrationID apiToken msg m.
Proof.
  unfold qualifies. intros Hq. apply andb_prop in Hq as [Hrole Hcontent].
  apply negb_true_iff in Hcontent.
  cbn [scanMessages]. rewrite Hrole, Hcontent. cbn [negb].
  unfold retrieve, bind, call, get_service, fail, ret.
  destruct (embedding_Create integrationID apiToken (Content msg) (world m))
    as [[emb [e|]] w1]; [reflexivity|]. cbn.
  destruct (embedding_FindBestDataset (datasets (service m)) emb) as [[d|] [e|]];
    try reflexivity. cbn.
  destruct (os_Open (Dataset_Filename d) w1) as [[file [e|]] w2]; [reflexivity|]. cbn.
  destruct (io_ReadAll file w2) as [[fileContents [e|]] w3]; reflexivity.
Qed.

(** The loop stops at the first qualifying message met from the end. *)
Lemma scanMessages_run downward m :
  scanMessages integrationID apiToken downward m
  = match find qualifies downward with
    | Some msg => retrieve integrationID apiToken msg m
    | None => (Ok [], m, [])
    end.
Proof.
  induction downward as [|msg older IH]; [reflexivity|].
  cbn [find]. destruct (qualifies msg) eqn:Hq.
  - apply scanMessages_qualifying; assumption.
  - rewrite scanMessages_skip by assumption. exact IH.
Qed.

(** A retrieval embeds the content of its message and nothing else,
    leaves the service alone, never panics and injects at most one
    system message. *)
Lemma retrieve_facts msg m :
  exists r m' t,
    retrieve integrationID apiToken msg m = (r, m', t) /\
    service m' = service m /\
    embed_calls t = [Content msg] /\
    chat_calls t = [] /\ written t = [] /\ build_calls t = [] /\
    ((exists e, r = Err e) \/ r = Ok [] \/
     (exists fileContents, r = Ok [systemMessage fileContents])).
Proof.
  unfold retrieve.
  destruct (embedding_Create integrationID apiToken (Content msg) (world m))
    as [[emb [e|]] w1].
  { eexists _, _, _. repeat split; eauto. }
  destruct (embedding_FindBestDataset (datasets (service m)) emb) as [[d|] [e|]];
    try (eexists _, _, _; repeat split; eauto; fail).
  destruct (os_Open (Dataset_Filename d) w1) as [[file [e|]] w2].
  { eexists _, _, _. repeat split; eauto. }
  destruct (io_ReadAll file w2) as [[fileContents [e|]] w3].
  { eexists _, _, _. repeat split; eauto. }
  eexists _, _, _. repeat split; eauto.
Qed.

End Retrieval.

(** ** The relay of the downstream stream *)

Section Relay.
Context `{Collaborators}.

Lemma relayUnits_step buf rest m :
  relayUnits (buf :: rest) m
  = let '((n, err), w1) := w_Write buf (world m) in
    let m1 := {| service := service m; world := w1 |} in
    match err with
    | Some e => (Err (writeError e), m1, [EvWrite buf n (Some e)])
    | None =>
        let '((n', err'), w2) := w_Write [newline] w1 in
        let m2 := {| service := service m; world := w2 |} in
        match err' with
        | Some e =>
            (Err (delimiterError e), m2,
             [EvWrite buf n None; EvWrite [newline] n' (Some e)])
        | None =>
            let '(r, m3, t) := relayUnits rest m2 in
            (r, m3, EvWrite buf n None :: EvWrite [newline] n' None :: t)
        end
    end.
Proof.
  cbn [relayUnits]. unfold bind, Write, call, fail.
  destruct (w_Write buf (world m)) as [[n [e|]] w1]; [reflexivity|]. cbn.
  destruct (w_Write [newline] w1) as [[n' [e|]] w2]; [reflexivity|]. cbn.
  destruct (relayUnits rest _) as [[r m3] t]. reflexivity.
Qed.

Lemma relayUnits_relayed (contract : io_Writer_contract) units :
  forall m, exists r m' t,
    relayUnits units m = (r, m', t) /\
    relayed units (Ok tt) r t /\
    (r = Ok tt \/ exists e, r = Err e).
Proof.
  induction units as [|buf rest IH]; intros m.
  - exists (Ok tt), m, []. unfold relayed. cbn. auto 10.
  - rewrite relayUnits_step.
    destruct (w_Write buf (world m)) as [[n [e|]] w1] eqn:Hw1.
    + eexists _, _, _. split; [reflexivity|].
      unfold relayed. cbn. repeat split; eauto.
      exists 0, (firstn n buf), (skipn n buf ++ [newline]).
      split; [lia|]. split; [rewrite app_nil_r; reflexivity|].
      rewrite app_assoc, firstn_skipn. reflexivity.
    + apply contract in Hw1. subst n.
      destruct (w_Write [newline] w1) as [[n' [e|]] w2] eqn:Hw2.
      * eexists _, _, _. split; [reflexivity|].
        unfold relayed. cbn. repeat split; eauto.
        exists 0, (buf ++ firstn n' [newline]), (skipn n' [newline]).
        split; [lia|]. rewrite firstn_all. rewrite app_nil_r.
        split; [reflexivity|].
        rewrite <- app_assoc, firstn_skipn. reflexivity.
      * apply contract in Hw2. subst n'.
        destruct (IH {| service := service m; world := w2 |})
          as (r & m3 & t & Hrun & Hrel & Hres').
        cbv beta iota zeta. rewrite Hrun. eexists _, _, _. split; [reflexivity|].
        unfold relayed in *. cbn. rewrite firstn_all. fold (written t).
        split; [|exact Hres'].
        { destruct (failed_write t) as [e|].
          - destruct Hrel as [Hres (k & partial & tl & Hk & Hw & Hn)].
            split; [exact Hres|].
            exists (S k), partial, tl. split; [lia|]. split; [|exact Hn].
            rewrite Hw. unfold frame. cbn [firstn flat_map].
            rewrite <- !app_assoc. reflexivity.
          - destruct Hrel as [Hres Hw]. split; [exact Hres|].
            rewrite Hw. unfold frame. cbn [flat_map].
            rewrite <- !app_assoc. reflexivity. }
Qed.

(** The relay only writes to the caller, and leaves the service alone. *)
Lemma relayUnits_quiet units :
  forall m, exists r m' t,
    relayUnits units m = (r, m', t) /\
    service m' = service m /\
    embed_calls t = [] /\ chat_calls t = [] /\ build_calls t = [] /\
    filter is_processing t = [] /\ filter is_retrieval t = [].
Proof.
  induction units as [|buf rest IH]; intros m.
  - exists (Ok tt), m, []. cbn. auto 10.
  - rewrite relayUnits_step.
    destruct (w_Write buf (world m)) as [[n [e|]] w1].
    { eexists _, _, _. repeat split; reflexivity. }
    destruct (w_Write [newline] w1) as [[n' [e|]] w2].
    { eexists _, _, _. repeat split; reflexivity. }
    destruct (IH {| service := service m; world := w2 |})
      as (r & m3 & t & Hrun & Hsvc & He & Hc & Hb & Ho & Hr).
    cbv beta iota zeta. rewrite Hrun. eexists _, _, _. split; [reflexivity|].
    split; [exact Hsvc|]. cbn. repeat split; assumption.
Qed.

Lemma relay_run stream m :
  relay stream m
  = match relayUnits (stream_units stream) m with
    | (Ok _, m1, t1) => (end_of_stream stream, m1, t1)
    | (Err e, m1, t1) => (Err e, m1, t1)
    | (Panic, m1, t1) => (Panic, m1, t1)
    end.
Proof.
  unfold relay, bind, end_of_stream, readError.
  destruct (relayUnits (stream_units stream) m) as [[[[]| |] m1] t1]; try reflexivity.
  destruct (stream_Err stream) as [e|]; [destruct (errors_Is_EOF e)|];
    unfold ret, fail; rewrite app_nil_r; reflexivity.
Qed.

(** C6: the relay writes every unit of the downstream stream followed by
    one newline, in the order of the stream.  As long as no write fails,
    it ends with nil on a normal end of stream (no scanner error, or one
    that is [io.EOF]) and with the read error otherwise, everything
    relayed; at the first write that fails it returns that error, and the
    caller keeps the complete units written before and the part of the
    current unit (or of its newline) that went through. *)
Theorem relay_frames_units (contract : io_Writer_contract) stream m :
  exists r m' t,
    relay stream m = (r, m', t) /\
    match failed_write t with
    | None =>
        written t = frame (stream_units stream) /\
        r = match stream_Err stream with
            | Some e =>
                if errors_Is_EOF e then Ok tt
                else Err (fmt_Errorf_w "failed to read from stream: %w" e)
            | None => Ok tt
            end
    | Some e =>
        (r = Err (fmt_Errorf_w "failed to write to stream: %w" e) \/
         r = Err (fmt_Errorf_w "failed to write delimiter to stream: %w" e)) /\
        exists k partial rest,
          k < List.length (stream_units stream) /\
          written t = frame (firstn k (stream_units stream)) ++ partial /\
          nth k (stream_units stream) [] ++ [newline] = partial ++ rest
    end.
Proof.
  rewrite relay_run.
  destruct (relayUnits_relayed contract (stream_units stream) m)
    as (r & m' & t & Hrun & Hrel & Hres).
  rewrite Hrun. unfold relayed in Hrel.
  destruct (failed_write t) as [e|] eqn:Hfw.
  - destruct Hrel as [Hr Hw].
    assert (exists e', r = Err e') as [e' ->] by (destruct Hr; eauto).
    eexists _, _, _. split; [reflexivity|]. rewrite Hfw. split; assumption.
  - destruct Hrel as [-> Hw].
    eexists _, _, _. split; [reflexivity|]. rewrite Hfw. split; [exact Hw|reflexivity].
Qed.

End Relay.

(** ** generateCompletion, step by step *)

Section Orchestrator.
Context `{Collaborators}.
Variables (integrationID apiToken : string).

Lemma embed_calls_app t1 t2 : embed_calls (t1 ++ t2) = embed_calls t1 ++ embed_calls t2.
Proof. apply flat_map_app. Qed.

Lemma chat_calls_app t1 t2 : chat_calls (t1 ++ t2) = chat_calls t1 ++ chat_calls t2.
Proof. apply flat_map_app. Qed.

Lemma written_app t1 t2 : written (t1 ++ t2) = written t1 ++ written t2.
Proof. apply flat_map_app. Qed.

Lemma build_calls_app t1 t2 : build_calls (t1 ++ t2) = build_calls t1 ++ build_calls t2.
Proof. apply filter_app. Qed.

Lemma build_calls_embed t : embed_calls (build_calls t) = [].
Proof.
  induction t as [|ev t IH]; [reflexivity|].
  destruct ev; cbn; try exact IH.
Qed.

Lemma build_calls_chat t : chat_calls (build_calls t) = [].
Proof.
  induction t as [|ev t IH]; [reflexivity|].
  destruct ev; cbn; try exact IH.
Qed.

Lemma build_calls_retrieval t : filter is_retrieval (build_calls t) = [].
Proof.
  induction t as [|ev t IH]; [reflexivity|].
  destruct ev; cbn; try exact IH.
Qed.

Lemma build_calls_written t : written (build_calls t) = [].
Proof.
  induction t as [|ev t IH]; [reflexivity|].
  destruct ev; cbn; try exact IH.
Qed.

Lemma generateCompletion_run req m :
  generateCompletion integrationID apiToken (Some req) m
  = match datasetsInit_Do integrationID apiToken m with
    | (Ok None, m1, t1) =>
        match scanMessages integrationID apiToken (rev (Messages req)) m1 with
        | (Ok context, m2, t2) =>
            let '(r, m3, t3) := forward apiToken req context m2 in
            (r, m3, t1 ++ t2 ++ t3)
        | (Err e, m2, t2) => (Err e, m2, t1 ++ t2)
        | (Panic, m2, t2) => (Panic, m2, t1 ++ t2)
        end
    | (Ok (Some e), m1, t1) => (Err e, m1, t1)
    | (Err e, m1, t1) => (Err e, m1, t1)
    | (Panic, m1, t1) => (Panic, m1, t1)
    end.
Proof.
  unfold generateCompletion. unfold bind at 1.
  destruct (datasetsInit_Do integrationID apiToken m) as [[[[e|]| |] m1] t1];
    try reflexivity.
  - unfold fail. rewrite app_nil_r. reflexivity.
  - unfold bind at 1.
    destruct (scanMessages integrationID apiToken (rev (Messages req)) m1)
      as [[[context| |] m2] t2]; try reflexivity.
    unfold forward, forwarded, bind, call, fail, defer.
    destruct (copilot_ChatCompletions _ _ _ (world m2)) as [[stream [e|]] w];
      [reflexivity|]. cbn.
    destruct (relay stream _) as [[r m3] t3]. reflexivity.
Qed.

End Orchestrator.

(** ** Retrieval and context injection *)

Section Claims.
Context `{Collaborators}.
Variables (integrationID apiToken : string).

Lemma qualifies_true msg :
  qualifies msg = true <-> Role msg = "user"%string /\ Content msg <> ""%string.
Proof.
  unfold qualifies. rewrite andb_true_iff, negb_true_iff, String.eqb_eq, String.eqb_neq.
  reflexivity.
Qed.

Lemma qualifies_false msg :
  qualifies msg = false <-> ~ (Role msg = "user"%string /\ Content msg <> ""%string).
Proof.
  rewrite <- qualifies_true. destruct (qualifies msg); split; intros; congruence.
Qed.

(** [latest_user_message] picks the qualifying message that no qualifying
    message follows. *)
Lemma latest_user_message_Some msgs msg :
  latest_user_message msgs = Some msg <->
  exists before after,
    msgs = before ++ msg :: after /\
    qualifies msg = true /\
    Forall (fun later => qualifies later = false) after.
Proof.
  unfold latest_user_message. split.
  - revert msg. induction msgs as [|last msgs IH] using rev_ind; intros msg Hfind.
    + discriminate.
    + rewrite rev_app_distr in Hfind. cbn in Hfind.
      destruct (qualifies last) eqn:Hq.
      * inversion Hfind; subst. exists msgs, []. auto.
      * destruct (IH _ Hfind) as (before & after & -> & Hmsg & Hafter).
        exists before, (after ++ [last]). rewrite <- app_assoc. cbn.
        repeat split; auto. apply Forall_app. auto.
  - intros (before & after & -> & Hmsg & Hafter).
    rewrite rev_app_distr. cbn. rewrite <- app_assoc. cbn.
    induction after as [|a after IH] using rev_ind.
    + cbn. rewrite Hmsg. reflexivity.
    + apply Forall_app in Hafter as [Hafter Ha]. inversion Ha; subst.
      rewrite rev_app_distr. cbn.
      match goal with Hq : qualifies a = false |- _ => rewrite Hq end.
      apply IH. exact Hafter.
Qed.

Lemma latest_user_message_None msgs :
  latest_user_message msgs = None <->
  Forall (fun msg => ~ (Role msg = "user"%string /\ Content msg <> ""%string)) msgs.
Proof.
  unfold latest_user_message. split.
  - intros Hfind. apply Forall_forall. intros msg Hin.
    apply qualifies_false. apply (find_none _ _ Hfind). apply in_rev in Hin. exact Hin.
  - intros Hall. destruct (find qualifies (rev msgs)) as [msg|] eqn:Hfind; [|reflexivity].
    apply find_some in Hfind as [Hin Hq]. apply in_rev in Hin.
    rewrite Forall_forall in Hall. apply Hall in Hin. apply qualifies_false in Hin.
    congruence.
Qed.

Lemma relay_quiet stream m :
  exists r m' t,
    relay stream m = (r, m', t) /\
    service m' = service m /\
    embed_calls t = [] /\ chat_calls t = [] /\ build_calls t = [] /\
    filter is_retrieval t = [].
Proof.
  rewrite relay_run.
  destruct (relayUnits_quiet (stream_units stream) m)
    as (r & m' & t & Hrun & Hsvc & He & Hc & Hb & _ & Hr).
  rewrite Hrun. destruct r; eexists _, _, _; repeat split; eauto.
Qed.

(** Forwarding calls the completion service once, with the context in
    front of the original messages, and embeds or loads nothing. *)
Lemma forward_facts req context m :
  exists r m' t,
    forward apiToken req context m = (r, m', t) /\
    service m' = service m /\
    chat_calls t = [forwarded req context] /\
    embed_calls t = [] /\ build_calls t = [] /\ filter is_retrieval t = [].
Proof.
  unfold forward.
  destruct (copilot_ChatCompletions _ _ _ (world m)) as [[stream [e|]] w].
  { eexists _, _, _. repeat split; reflexivity. }
  destruct (relay_quiet stream {| service := service m; world := w |})
    as (r & m' & t & Hrun & Hsvc & He & Hc & Hb & Hr).
  rewrite Hrun. eexists _, _, _. split; [reflexivity|].
  split; [exact Hsvc|]. cbn.
  rewrite chat_calls_app, embed_calls_app, build_calls_app, filter_app, Hc, He, Hb, Hr.
  repeat split; reflexivity.
Qed.

(** C4: retrieval embeds the content of the most recent message with
    role "user" and non-empty content, once, and the content of no other
    message: when the ensure-step lets the request through, the calls of
    the embedding function are that one content (none when no message
    qualifies); when it does not, there is no call at all. *)
Theorem retrieval_embeds_latest_user_message req m :
  embed_calls (snd (generateCompletion integrationID apiToken (Some req) m))
  = match fst (fst (datasetsInit_Do integrationID apiToken m)) with
    | Ok None => option_list (option_map Content (latest_user_message (Messages req)))
    | _ => []
    end.
Proof.
  rewrite generateCompletion_run.
  destruct (datasetsInit_Do_returns integrationID apiToken m)
    as (err & m1 & t1 & Hinit & _ & _ & Hbuild).
  rewrite Hinit. cbn [fst].
  assert (Ht1 : embed_calls t1 = []) by (rewrite <- Hbuild; apply build_calls_embed).
  destruct err as [e|]; [exact Ht1|].
  rewrite scanMessages_run. unfold latest_user_message.
  destruct (find qualifies (rev (Messages req))) as [msg|].
  - destruct (retrieve_facts integrationID apiToken msg m1)
      as (r & m2 & t2 & Hret & _ & He2 & _ & _ & _ & Hr).
    rewrite Hret.
    destruct Hr as [[e ->]|[->|[fileContents ->]]].
    + cbn [snd]. rewrite embed_calls_app, Ht1, He2. reflexivity.
    + destruct (forward_facts req [] m2) as (r3 & m3 & t3 & Hfw & _ & _ & He3 & _).
      rewrite Hfw. cbn [snd]. rewrite !embed_calls_app, Ht1, He2, He3. reflexivity.
    + destruct (forward_facts req [systemMessage fileContents] m2)
        as (r3 & m3 & t3 & Hfw & _ & _ & He3 & _).
      rewrite Hfw. cbn [snd]. rewrite !embed_calls_app, Ht1, He2, He3. reflexivity.
  - destruct (forward_facts req [] m1) as (r3 & m3 & t3 & Hfw & _ & _ & He3 & _).
    rewrite Hfw. cbn [snd]. rewrite !embed_calls_app, Ht1, He3. reflexivity.
Qed.

(** C8: when no message has role "user" and non-empty content, no
    retrieval step runs (no embedding, no document opened or read), and
    the conversation handed to the completion service, once the
    ensure-step lets the request through, is the original list of
    messages, unchanged and in order. *)
Theorem no_user_message_forwards_unchanged req m :
  Forall (fun msg => ~ (Role msg = "user"%string /\ Content msg <> ""%string))
         (Messages req) ->
  filter is_retrieval (snd (generateCompletion integrationID apiToken (Some req) m)) = [] /\
  chat_calls (snd (generateCompletion integrationID apiToken (Some req) m))
  = match fst (fst (datasetsInit_Do integrationID apiToken m)) with
    | Ok None =>
        [{| CC_Messages := Messages req; CC_Model := "gpt-4o"%string; CC_Stream := true |}]
    | _ => []
    end.
Proof.
  intros Hnone. apply latest_user_message_None in Hnone. unfold latest_user_message in Hnone.
  rewrite generateCompletion_run.
  destruct (datasetsInit_Do_returns integrationID apiToken m)
    as (err & m1 & t1 & Hinit & _ & _ & Hbuild).
  rewrite Hinit. cbn [fst].
  assert (Hc1 : chat_calls t1 = []) by (rewrite <- Hbuild; apply build_calls_chat).
  assert (Hr1 : filter is_retrieval t1 = [])
    by (rewrite <- Hbuild; apply build_calls_retrieval).
  destruct err as [e|]; [split; assumption|].
  rewrite scanMessages_run, Hnone.
  destruct (forward_facts req [] m1) as (r3 & m3 & t3 & Hfw & _ & Hc3 & _ & _ & Hr3).
  rewrite Hfw. cbn [snd app].
  rewrite filter_app, chat_calls_app, Hc1, Hr1, Hc3, Hr3. split; reflexivity.
Qed.

(** C5: when a dataset is selected (and its document loads), the
    completion service is called once, and the conversation it gets is
    one system message, [lPrePrompt] followed by "Context: " and the
    document content, and then all the original messages in their order. *)
Theorem selected_dataset_injects_one_system_message
        req m m1 t1 msg emb w1 dataset file w2 fileContents w3 :
  datasetsInit_Do integrationID apiToken m = (Ok None, m1, t1) ->
  latest_user_message (Messages req) = Some msg ->
  embedding_Create integrationID apiToken (Content msg) (world m1) = ((emb, None), w1) ->
  embedding_FindBestDataset (datasets (service m1)) emb = (Some dataset, None) ->
  os_Open (Dataset_Filename dataset) w1 = ((file, None), w2) ->
  io_ReadAll file w2 = ((fileContents, None), w3) ->
  chat_calls (snd (generateCompletion integrationID apiToken (Some req) m))
  = [{| CC_Messages :=
          {| Role := "system";
             Content := lPrePrompt +++ "Context: " +++ string_of_list_byte fileContents |}
          :: Messages req;
        CC_Model := "gpt-4o"%string;
        CC_Stream := true |}].
Proof.
  intros Hinit Hlatest Hcreate Hbest Hopen Hread.
  rewrite generateCompletion_run, Hinit.
  destruct (datasetsInit_Do_returns integrationID apiToken m)
    as (err & m1' & t1' & Hinit' & _ & _ & Hbuild).
  rewrite Hinit in Hinit'. inversion Hinit'; subst err m1' t1'.
  assert (Hc1 : chat_calls t1 = []) by (rewrite <- Hbuild; apply build_calls_chat).
  rewrite scanMessages_run. unfold latest_user_message in Hlatest. rewrite Hlatest.
  unfold retrieve. rewrite Hcreate, Hbest, Hopen, Hread.
  destruct (forward_facts req [systemMessage fileContents]
              {| service := service m1; world := w3 |})
    as (r3 & m3 & t3 & Hfw & _ & Hc3 & _).
  rewrite Hfw. cbn [snd]. rewrite !chat_calls_app, Hc1, Hc3. reflexivity.
Qed.

(** Whatever happens, the completion service is called at most once, and
    what it gets is the original messages behind at most one system
    message. *)
Lemma at_most_one_injection req m :
  let calls := chat_calls (snd (generateCompletion integrationID apiToken (Some req) m)) in
  calls = [] \/
  calls = [forwarded req []] \/
  exists fileContents, calls = [forwarded req [systemMessage fileContents]].
Proof.
  cbv zeta. rewrite generateCompletion_run.
  destruct (datasetsInit_Do_returns integrationID apiToken m)
    as (err & m1 & t1 & Hinit & _ & _ & Hbuild).
  rewrite Hinit.
  assert (Hc1 : chat_calls t1 = []) by (rewrite <- Hbuild; apply build_calls_chat).
  destruct err as [e|]; [left; exact Hc1|].
  rewrite scanMessages_run.
  destruct (find qualifies (rev (Messages req))) as [msg|].
  - destruct (retrieve_facts integrationID apiToken msg m1)
      as (r & m2 & t2 & Hret & _ & _ & Hc2 & _ & _ & Hr).
    rewrite Hret.
    destruct Hr as [[e ->]|[->|[fileContents ->]]].
    + left. cbn [snd]. rewrite chat_calls_app, Hc1, Hc2. reflexivity.
    + right; left.
      destruct (forward_facts req [] m2) as (r3 & m3 & t3 & Hfw & _ & Hc3 & _).
      rewrite Hfw. cbn [snd]. rewrite !chat_calls_app, Hc1, Hc2, Hc3. reflexivity.
    + right; right. exists fileContents.
      destruct (forward_facts req [systemMessage fileContents] m2)
        as (r3 & m3 & t3 & Hfw & _ & Hc3 & _).
      rewrite Hfw. cbn [snd]. rewrite !chat_calls_app, Hc1, Hc2, Hc3. reflexivity.
  - right; left.
    destruct (forward_facts req [] m1) as (r3 & m3 & t3 & Hfw & _ & Hc3 & _).
    rewrite Hfw. cbn [snd app]. rewrite chat_calls_app, Hc1, Hc3. reflexivity.
Qed.

(** What [generateCompletion] writes and returns, once the completion
    service has answered with a stream, is what the relay of that stream
    writes and returns; before that point nothing is written. *)
Lemma generateCompletion_relays req m :
  written (snd (generateCompletion integrationID apiToken (Some req) m)) = [] \/
  exists context m2 stream w,
    copilot_ChatCompletions "copilot-chat" apiToken (forwarded req context) (world m2)
    = ((stream, None), w) /\
    let run := relay stream {| service := service m2; world := w |} in
    written (snd (generateCompletion integrationID apiToken (Some req) m))
    = written (snd run) /\
    fst (fst (generateCompletion integrationID apiToken (Some req) m)) = fst (fst run).
Proof.
  rewrite generateCompletion_run.
  destruct (datasetsInit_Do_returns integrationID apiToken m)
    as (err & m1 & t1 & Hinit & _ & _ & Hbuild).
  rewrite Hinit.
  assert (Hw1 : written t1 = []) by (rewrite <- Hbuild; apply build_calls_written).
  destruct err as [e|]; [left; exact Hw1|].
  assert (Hforward : forall context m2 t2,
             written t2 = [] ->
             let '(r, m3, t3) := forward apiToken req context m2 in
             written (t1 ++ t2 ++ t3) = [] \/
             exists stream w,
               copilot_ChatCompletions "copilot-chat" apiToken (forwarded req context)
                 (world m2) = ((stream, None), w) /\
               written (t1 ++ t2 ++ t3)
               = written (snd (relay stream {| service := service m2; world := w |})) /\
               r = fst (fst (relay stream {| service := service m2; world := w |}))).
  { intros context m2 t2 Hw2. unfold forward.
    destruct (copilot_ChatCompletions _ _ _ (world m2)) as [[stream [e|]] w].
    - left. rewrite !written_app, Hw1, Hw2. reflexivity.
    - cbv beta iota zeta.
      destruct (relay stream {| service := service m2; world := w |})
        as [[r m3] t3] eqn:Hrelay.
      right. exists stream, w. rewrite Hrelay. split; [reflexivity|]. cbn [fst snd].
      split; [|reflexivity].
      rewrite !written_app, Hw1, Hw2. cbn [app].
      change (EvChatCompletions "copilot-chat" apiToken (forwarded req context)
                :: t3 ++ [EvClose])
        with ([EvChatCompletions "copilot-chat" apiToken (forwarded req context)]
                ++ t3 ++ [EvClose]).
      rewrite !written_app. cbn. rewrite app_nil_r. reflexivity. }
  rewrite scanMessages_run.
  destruct (find qualifies (rev (Messages req))) as [msg|].
  - destruct (retrieve_facts integrationID apiToken msg m1)
      as (r & m2 & t2 & Hret & _ & _ & _ & Hw2 & _ & Hr).
    rewrite Hret.
    destruct Hr as [[e ->]|[->|[fileContents ->]]].
    + left. cbn [snd]. rewrite written_app, Hw1, Hw2. reflexivity.
    + specialize (Hforward [] m2 t2 Hw2).
      destruct (forward apiToken req [] m2) as [[r3 m3] t3]. cbn [fst snd].
      destruct Hforward as [Hnil|(stream & w & Hcall & Hw & Hres)]; [left; exact Hnil|].
      right. exists [], m2, stream, w. cbv zeta. auto.
    + specialize (Hforward [systemMessage fileContents] m2 t2 Hw2).
      destruct (forward apiToken req [systemMessage fileContents] m2) as [[r3 m3] t3].
      cbn [fst snd].
      destruct Hforward as [Hnil|(stream & w & Hcall & Hw & Hres)]; [left; exact Hnil|].
      right. exists [systemMessage fileContents], m2, stream, w. cbv zeta. auto.
  - specialize (Hforward [] m1 [] eq_refl).
    destruct (forward apiToken req [] m1) as [[r3 m3] t3]. cbn [fst snd].
    destruct Hforward as [Hnil|(stream & w & Hcall & Hw & Hres)]; [left; exact Hnil|].
    right. exists [], m1, stream, w. cbv zeta. auto.
Qed.

End Claims.

(** ** The handler *)

Section Handler.
Context `{Collaborators}.

Lemma ChatCompletion_unreadable_body r m body e :
  Body r = (body, Some e) ->
  ChatCompletion r m
  = (Ok tt,
     {| service := service m; world := w_WriteHeader StatusInternalServerError (world m) |},
     [EvWriteHeader StatusInternalServerError]).
Proof. intros Hb. unfold ChatCompletion. rewrite Hb. reflexivity. Qed.

Lemma ChatCompletion_signature_error r m body b e :
  Body r = (body, None) ->
  validPayload body (signature_of r) (pubKey (service m)) = (b, Some e) ->
  ChatCompletion r m
  = (Ok tt,
     {| service := service m; world := w_WriteHeader StatusInternalServerError (world m) |},
     [EvWriteHeader StatusInternalServerError]).
Proof.
  intros Hb Hv. unfold ChatCompletion, signature_of in *. rewrite Hb.
  unfold bind at 1. unfold get_service. rewrite Hv. reflexivity.
Qed.

Lemma ChatCompletion_signature_invalid r m body :
  Body r = (body, None) ->
  validPayload body (signature_of r) (pubKey (service m)) = (false, None) ->
  exists n err w,
    ChatCompletion r m
    = (Ok tt, {| service := service m; world := w |},
       [EvWriteHeader StatusUnauthorized;
        EvWrite (list_byte_of_string "invalid payload signature" ++ [newline]) n err]).
Proof.
  intros Hb Hv. unfold ChatCompletion, signature_of in *. rewrite Hb.
  unfold bind at 1. unfold get_service. rewrite Hv. cbn [negb].
  unfold http_Error, WriteHeader, Write, bind, call, ret. cbn.
  destruct (w_Write _ _) as [[n err] w]. cbn. eauto.
Qed.

(** C7: when the signature of a request fails verification, the handler
    returns with the service untouched and with no event but what it
    writes to the response: the body is not parsed as a conversation,
    and there is no directory enumeration, no embedding call, no document
    read and no call of the completion service. *)
Theorem rejected_signature_reaches_no_collaborator r m :
  validPayload (fst (Body r)) (signature_of r) (pubKey (service m)) <> (true, None) ->
  exists m' t,
    ChatCompletion r m = (Ok tt, m', t) /\
    service m' = service m /\
    filter is_processing t = [] /\
    embed_calls t = [] /\ chat_calls t = [] /\ build_calls t = [].
Proof.
  intros Hbad. destruct (Body r) as [body [e|]] eqn:Hb.
  - rewrite (ChatCompletion_unreadable_body _ _ _ _ Hb).
    eexists _, _. repeat split; reflexivity.
  - cbn [fst] in Hbad.
    destruct (validPayload body (signature_of r) (pubKey (service m))) as [b [e|]] eqn:Hv.
    + rewrite (ChatCompletion_signature_error _ _ _ _ _ Hb Hv).
      eexists _, _. repeat split; reflexivity.
    + destruct b; [congruence|].
      destruct (ChatCompletion_signature_invalid _ _ _ Hb Hv) as (n & err & w & ->).
      eexists _, _. repeat split; reflexivity.
Qed.

(** C3, as the code has it: when [validPayload] reports an error (the
    signature is not base64, or not the ASN.1 structure) the handler
    answers 500; when it reports a signature that does not verify, with
    no error, the handler answers 401 with the body "invalid payload
    signature"; either way it returns there. *)
Theorem signature_failure_response r m body b err :
  Body r = (body, None) ->
  validPayload body (signature_of r) (pubKey (service m)) = (b, err) ->
  (b, err) <> (true, None) ->
  exists m' t,
    ChatCompletion r m = (Ok tt, m', t) /\
    service m' = service m /\
    statuses t = [match err with
                  | Some _ => StatusInternalServerError
                  | None => StatusUnauthorized
                  end] /\
    filter is_processing t = [] /\
    match err with
    | Some _ => t = [EvWriteHeader StatusInternalServerError]
    | None =>
        exists n e,
          t = [EvWriteHeader StatusUnauthorized;
               EvWrite (list_byte_of_string "invalid payload signature" ++ [newline]) n e]
    end.
Proof.
  intros Hb Hv Hbad. destruct err as [e|].
  - rewrite (ChatCompletion_signature_error _ _ _ _ _ Hb Hv).
    eexists _, _. repeat split; reflexivity.
  - destruct b; [congruence|].
    destruct (ChatCompletion_signature_invalid _ _ _ Hb Hv) as (n & e & w & ->).
    eexists _, _. repeat split; eauto.
Qed.

End Handler.

(** ** The build failure and later callers *)

(** After the first call of the ensure-step, whatever it returned, every
    later call returns nil without an event. *)
Lemma ensure_step_after_first_call `{Collaborators} integrationID apiToken m :
  exists err m1 t1,
    datasetsInit_Do integrationID apiToken m = (Ok err, m1, t1) /\
    forall integrationID' apiToken' w,
      datasetsInit_Do integrationID' apiToken' {| service := service m1; world := w |}
      = (Ok None, {| service := service m1; world := w |}, []).
Proof.
  destruct (datasetsInit_Do_returns integrationID apiToken m)
    as (err & m1 & t1 & Hrun & Hdone & _ & _).
  exists err, m1, t1. split; [exact Hrun|].
  intros integrationID' apiToken' w. apply datasetsInit_Do_done. exact Hdone.
Qed.

(** C1, on a process with no "data" directory: the first request gets
    the error of the failed enumeration; the second request gets nil
    from the ensure-step, runs no build, embeds the user message against
    the empty corpus and calls the completion service with the
    conversation as it came. *)
Theorem build_failure_is_lost_after_first_request :
  fst (fst Scenario.first_request)
  = Err (readDirError (errors_New "open data: no such file or directory")) /\
  datasets (service (snd (fst Scenario.first_request))) = [] /\
  fst (fst Scenario.second_request) = Ok tt /\
  build_calls (snd Scenario.second_request) = [] /\
  embed_calls (snd Scenario.second_request) = ["c"%string] /\
  chat_calls (snd Scenario.second_request)
  = [{| CC_Messages := Messages Sim.conversation;
        CC_Model := "gpt-4o"%string;
        CC_Stream := true |}].
Proof. repeat split; vm_compute; reflexivity. Qed.

(** C9, on the same process with three callers of the ensure-step: the
    build runs once (one directory enumeration), the first caller gets
    its error, the other two get nil. *)
Theorem callers_do_not_share_the_failure :
  fst (fst Scenario.three_callers)
  = Ok [Some (readDirError (errors_New "open data: no such file or directory"));
        None; None] /\
  snd Scenario.three_callers = [EvReadDir "data"].
Proof. split; vm_compute; reflexivity. Qed.

(** ** Closed instances *)

(** The conversation of the spec's example embeds "c" only. *)
Example embeds_only_c :
  embed_calls
    (snd (@generateCompletion _ (Sim.collaborators Sim.one_document) "id" "tok"
            (Some Sim.conversation) (Sim.start Sim.one_document Sim.accept_all)))
  = ["c"%string].
Proof. vm_compute. reflexivity. Qed.

Lemma Sim_writer_contract cfg :
  @io_Writer_contract _ (Sim.collaborators cfg).
Proof.
  intros buf w n w'. cbn. unfold Sim.Write.
  destruct (Sim.cfg_failing_write cfg) as [k|]; [destruct (Nat.eqb k w)|];
    intros Heq; inversion Heq; reflexivity.
Qed.

(** C3: a signature that is not base64 is answered with 500, not 401. *)
Lemma malformed_signature_answers_500 :
  @validPayload oracle_crypto Scenario.body (signature_of Scenario.malformed_request)
    Sim.accept_all
  = (false, Some (errors_New "illegal base64 data")) /\
  statuses
    (snd (@ChatCompletion _ (Sim.collaborators Sim.one_document) Scenario.malformed_request
            (Sim.start Sim.one_document Sim.accept_all)))
  = [StatusInternalServerError] /\
  statuses
    (snd (@ChatCompletion _ (Sim.collaborators Sim.one_document) Scenario.malformed_request
            (Sim.start Sim.one_document Sim.accept_all)))
  <> [StatusUnauthorized].
Proof. split; [reflexivity|]. split; [reflexivity|]. vm_compute. discriminate. Qed.

Lemma signature_failure_response_witness :
  exists m' t,
    @ChatCompletion _ (Sim.collaborators Sim.one_document) Scenario.wellformed_request
      (Sim.start Sim.one_document Sim.reject_all) = (Ok tt, m', t) /\
    service m' = service (Sim.start Sim.one_document Sim.reject_all) /\
    statuses t = [StatusUnauthorized] /\
    filter is_processing t = [] /\
    exists n e,
      t = [EvWriteHeader StatusUnauthorized;
           EvWrite (list_byte_of_string "invalid payload signature" ++ [newline]) n e].
Proof.
  apply (@signature_failure_response _ (Sim.collaborators Sim.one_document)
           Scenario.wellformed_request (Sim.start Sim.one_document Sim.reject_all)
           Scenario.body false None);
    [reflexivity | reflexivity | discriminate].
Defined.

Lemma rejected_signature_witness :
  exists m' t,
    @ChatCompletion _ (Sim.collaborators Sim.one_document) Scenario.wellformed_request
      (Sim.start Sim.one_document Sim.reject_all) = (Ok tt, m', t) /\
    service m' = service (Sim.start Sim.one_document Sim.reject_all) /\
    filter is_processing t = [] /\
    embed_calls t = [] /\ chat_calls t = [] /\ build_calls t = [].
Proof.
  apply (@rejected_signature_reaches_no_collaborator _ (Sim.collaborators Sim.one_document)
           Scenario.wellformed_request (Sim.start Sim.one_document Sim.reject_all)).
  vm_compute. discriminate.
Defined.

Lemma selected_dataset_witness :
  chat_calls
    (snd (@generateCompletion _ (Sim.collaborators Sim.one_document) "id" "tok"
            (Some Sim.conversation) (Sim.start Sim.one_document Sim.accept_all)))
  = [{| CC_Messages :=
          {| Role := "system";
             Content := lPrePrompt +++ "Context: " +++ "Batch Job Template" |}
          :: Messages Sim.conversation;
        CC_Model := "gpt-4o"%string;
        CC_Stream := true |}].
Proof.
  eapply (@selected_dataset_injects_one_system_message _ (Sim.collaborators Sim.one_document)
            "id" "tok" Sim.conversation (Sim.start Sim.one_document Sim.accept_all)
            _ _ (Sim.user "c") _ _ _ _ _ (Sim.bs "Batch Job Template"));
    reflexivity.
Defined.

Lemma no_user_message_witness :
  filter is_retrieval
    (snd (@generateCompletion _ (Sim.collaborators Sim.one_document) "id" "tok"
            (Some Scenario.no_user_conversation)
            (Sim.start Sim.one_document Sim.accept_all))) = [] /\
  chat_calls
    (snd (@generateCompletion _ (Sim.collaborators Sim.one_document) "id" "tok"
            (Some Scenario.no_user_conversation)
            (Sim.start Sim.one_document Sim.accept_all)))
  = [{| CC_Messages := Messages Scenario.no_user_conversation;
        CC_Model := "gpt-4o"%string;
        CC_Stream := true |}].
Proof.
  apply (@no_user_message_forwards_unchanged _ (Sim.collaborators Sim.one_document)
           "id" "tok" Scenario.no_user_conversation
           (Sim.start Sim.one_document Sim.accept_all)).
  repeat constructor; cbn; intros [Hrole Hcontent]; try discriminate; congruence.
Defined.

Lemma relay_witness :
  @io_Writer_contract _ (Sim.collaborators Sim.caller_disconnects) /\
  exists r m' t,
    @relay _ (Sim.collaborators Sim.caller_disconnects)
      (Sim.cfg_stream Sim.caller_disconnects)
      (Sim.start Sim.caller_disconnects Sim.accept_all) = (r, m', t) /\
    match failed_write t with
    | None =>
        written t = frame (stream_units (Sim.cfg_stream Sim.caller_disconnects)) /\
        r = Ok tt
    | Some e =>
        (r = Err (fmt_Errorf_w "failed to write to stream: %w" e) \/
         r = Err (fmt_Errorf_w "failed to write delimiter to stream: %w" e)) /\
        exists k partial rest,
          k < List.length (stream_units (Sim.cfg_stream Sim.caller_disconnects)) /\
          written t
          = frame (firstn k (stream_units (Sim.cfg_stream Sim.caller_disconnects)))
              ++ partial /\
          nth k (stream_units (Sim.cfg_stream Sim.caller_disconnects)) [] ++ [newline]
          = partial ++ rest
    end.
Proof.
  split; [apply Sim_writer_contract|].
  apply (@relay_frames_units _ (Sim.collaborators Sim.caller_disconnects)
           (Sim_writer_contract Sim.caller_disconnects)
           (Sim.cfg_stream Sim.caller_disconnects)
           (Sim.start Sim.caller_disconnects Sim.accept_all)).
Defined.

(** The two-line answer, relayed in full and cut at the fourth write. *)
Example relay_in_full :
  let run := @relay _ (Sim.collaborators Sim.one_document)
               (Sim.cfg_stream Sim.one_document)
               (Sim.start Sim.one_document Sim.accept_all) in
  fst (fst run) = Ok tt /\
  written (snd run)
  = Sim.bs "data: one" ++ [newline] ++ Sim.bs "data: two" ++ [newline].
Proof. split; vm_compute; reflexivity. Qed.

Example relay_cut_short :
  let run := @relay _ (Sim.collaborators Sim.caller_disconnects)
               (Sim.cfg_stream Sim.caller_disconnects)
               (Sim.start Sim.caller_disconnects Sim.accept_all) in
  fst (fst run)
  = Err (fmt_Errorf_w "failed to write delimiter to stream: %w"
           (errors_New "write: broken pipe")) /\
  written (snd run) = Sim.bs "data: one" ++ [newline] ++ Sim.bs "data: two".
Proof. split; vm_compute; reflexivity. Qed.



(** With a nil key the missing header still gets its answer: the key is
    not reached. *)
Example validPayload_nil_key_missing_header :
  forall signs_first data,
    @validPayload_ptr oracle_crypto signs_first data "" nil_key
    = Returned (false, Some (errors_New "asn1: syntax error: sequence truncated")).
Proof. intros signs_first data. reflexivity. Qed.

(** The missing header (the empty signature) decodes to no bytes, and
    the ASN.1 parser reports the truncated sequence. *)
Example validPayload_missing_header :
  forall data key,
    @validPayload oracle_crypto data "" key
    = (false, Some (errors_New "asn1: syntax error: sequence truncated")).
Proof. intros data key. reflexivity. Qed.

Example lPrePrompt_length : String.length lPrePrompt = 1630.
Proof. vm_compute. reflexivity. Qed.

(** A request that verifies goes through the whole pipeline: the body is
    parsed, the corpus built, "c" embedded, the document loaded, the
    completion service called and its answer relayed. *)
Example accepted_request_runs_the_pipeline :
  let run := @ChatCompletion _ (Sim.collaborators Sim.one_document)
               Scenario.wellformed_request
               (Sim.start Sim.one_document Sim.accept_all) in
  fst (fst run) = Ok tt /\
  filter is_processing (snd run)
  = [EvUnmarshal Scenario.body;
     EvReadDir "data";
     EvGenerateDatasets "id" "tok" ["data/batch.md"%string];
     EvCreate "id" "tok" "c";
     EvOpen "data/batch.md";
     EvReadAll;
     EvChatCompletions "copilot-chat" "tok"
       {| CC_Messages :=
            {| Role := "system";
               Content := lPrePrompt +++ "Context: " +++ "Batch Job Template" |}
            :: Messages Sim.conversation;
          CC_Model := "gpt-4o"%string;
          CC_Stream := true |};
     EvClose] /\
  statuses (snd run) = [] /\
  written (snd run) = Sim.bs "data: one" ++ [newline] ++ Sim.bs "data: two" ++ [newline].
Proof. repeat split; vm_compute; reflexivity. Qed.

(** A body that is the JSON value null leaves [req] nil: the handler
    panics at [req.Messages], after the ensure-step has run. *)
Example null_body_panics :
  let run := @ChatCompletion _ (Sim.collaborators Sim.one_document)
               Scenario.null_request
               (Sim.start Sim.one_document Sim.accept_all) in
  fst (fst run) = Panic /\
  snd run = [EvUnmarshal (Sim.bs "null");
             EvReadDir "data";
             EvGenerateDatasets "id" "tok" ["data/batch.md"%string]].
Proof. split; vm_compute; reflexivity. Qed.

(** The three kinds of signature that do not pass: not base64, base64 of
    bytes that are not the structure, and a structure that does not
    verify. *)
Example validPayload_not_base64 :
  forall data key,
    @validPayload oracle_crypto data "not base64" key
    = (false, Some (errors_New "illegal base64 data")).
Proof. intros data key. reflexivity. Qed.

Example validPayload_not_a_sequence :
  forall data key,
    @validPayload oracle_crypto data "AAAA" key
    = (false, Some (errors_New "asn1: structure error: tags don't match")).
Proof. intros data key. reflexivity. Qed.

Example validPayload_does_not_verify :
  forall data,
    @validPayload oracle_crypto data "MAYCAQECAQE=" Sim.reject_all = (false, None).
Proof. intros data. reflexivity. Qed.

(** * Further properties *)

(** ** validPayload *)

Section ValidPayloadMore.
Context `{Crypto}.

(** X1: [validPayload] answers true exactly when the signature is
    base64 of an ASN.1 structure with nothing after it and [ecdsa.Verify]
    accepts its two integers for the SHA-256 digest of the payload. *)
Theorem validPayload_true_iff data sig publicKey :
  fst (validPayload data sig publicKey) = true <->
  exists asnSig parsedSig,
    base64_DecodeString sig = (asnSig, None) /\
    asn1_Unmarshal asnSig = (parsedSig, [], None) /\
    ecdsa_Verify publicKey (sha256_Sum256 data) (sig_R parsedSig) (sig_S parsedSig) = true.
Proof.
  unfold validPayload. split.
  - destruct (base64_DecodeString sig) as [asnSig [e|]] eqn:Hb; cbn; [discriminate|].
    destruct (asn1_Unmarshal asnSig) as [[parsedSig rest] [e|]] eqn:Ha; cbn; [discriminate|].
    destruct rest as [|b rest]; cbn; [|discriminate].
    intros Hv. exists asnSig, parsedSig. auto.
  - intros (asnSig & parsedSig & Hb & Ha & Hv). rewrite Hb. cbn. rewrite Ha. cbn. exact Hv.
Qed.

(** X2: a signature that does not decode to a structure with nothing
    after it is turned down without a look at the payload or the key: the
    answer is the same for every payload and every key. *)
Theorem validPayload_rejects_undecoded data sig publicKey :
  (forall asnSig parsedSig,
      base64_DecodeString sig = (asnSig, None) ->
      asn1_Unmarshal asnSig <> (parsedSig, [], None)) ->
  fst (validPayload data sig publicKey) = false /\
  forall data' publicKey',
    validPayload data' sig publicKey' = validPayload data sig publicKey.
Proof.
  intros Hbad. unfold validPayload.
  destruct (base64_DecodeString sig) as [asnSig [e|]] eqn:Hb; cbn; [auto|].
  destruct (asn1_Unmarshal asnSig) as [[parsedSig rest] [e|]] eqn:Ha; cbn; [auto|].
  destruct rest as [|b rest]; cbn; [|auto].
  exfalso. apply (Hbad asnSig parsedSig eq_refl). exact Ha.
Qed.

End ValidPayloadMore.

Lemma validPayload_rejects_undecoded_witness :
  fst (@validPayload oracle_crypto Scenario.body "MAYCAQECAQEA" Sim.accept_all) = false /\
  forall data' publicKey',
    @validPayload oracle_crypto data' "MAYCAQECAQEA" publicKey'
    = @validPayload oracle_crypto Scenario.body "MAYCAQECAQEA" Sim.accept_all.
Proof.
  apply (@validPayload_rejects_undecoded oracle_crypto Scenario.body "MAYCAQECAQEA"
           Sim.accept_all).
  intros asnSig parsedSig Hb Ha.
  vm_compute in Hb. inversion Hb; subst asnSig.
  vm_compute in Ha. discriminate Ha.
Defined.

(** ** The paths of a run *)

Section Paths.
Context `{Collaborators}.

Lemma datasetsInit_Do_shape integrationID apiToken m :
  exists err m1 t1,
    datasetsInit_Do integrationID apiToken m = (Ok err, m1, t1) /\
    datasetsInit (service m1) = true /\
    pubKey (service m1) = pubKey (service m) /\
    Forall (build_of integrationID apiToken) t1 /\
    (forall e, err = Some e -> ensure_error e) /\
    (datasetsInit (service m) = true -> err = None /\ m1 = m /\ t1 = []) /\
    (datasetsInit (service m) = false -> exists rest, t1 = EvReadDir "data" :: rest).
Proof.
  destruct (datasetsInit (service m)) eqn:Hd.
  - exists None, m, []. rewrite datasetsInit_Do_done by assumption.
    repeat split; auto; try discriminate.
  - destruct (os_ReadDir "data" (world m)) as [[files [e|]] w] eqn:Hr.
    + eexists _, _, _. rewrite (datasetsInit_Do_ReadDir_error _ _ _ _ _ _ Hd Hr).
      split; [reflexivity|]. split; [reflexivity|]. split; [reflexivity|].
      split; [repeat constructor|].
      split; [intros e' He'; inversion He'; exists e; auto|].
      split; [discriminate|eauto].
    + destruct (embedding_GenerateDatasets integrationID apiToken
                  (map (fun file => filepath_Join "data" file) files) w)
        as [[ds err] w'] eqn:Hg.
      eexists _, _, _. rewrite (datasetsInit_Do_build _ _ _ _ _ _ _ _ Hd Hr Hg).
      split; [reflexivity|]. split; [reflexivity|]. split; [reflexivity|].
      split; [repeat constructor|].
      split; [|split; [discriminate|eauto]].
      intros e' He'. destruct err as [e|]; inversion He'. exists e; auto.
Qed.

Lemma retrieve_shape integrationID apiToken msg m :
  exists r m' t,
    retrieve integrationID apiToken msg m = (r, m', t) /\
    service m' = service m /\
    Forall (retrieval_of integrationID apiToken) t /\
    ((exists e, r = Err e /\ retrieval_error e) \/ exists context, r = Ok context /\ injected context).
Proof.
  unfold retrieve, retrieval_error, injected.
  destruct (embedding_Create integrationID apiToken (Content msg) (world m))
    as [[emb [e|]] w1].
  { eexists _, _, _. repeat split; [repeat constructor; cbn; auto|]. left. eauto 10. }
  destruct (embedding_FindBestDataset (datasets (service m)) emb) as [[d|] [e|]].
  1, 3: eexists _, _, _; repeat split; [repeat constructor; cbn; auto|]; left; eauto 10.
  2: { eexists _, _, _. repeat split; [repeat constructor; cbn; auto|]. right. eauto. }
  destruct (os_Open (Dataset_Filename d) w1) as [[file [e|]] w2].
  { eexists _, _, _. repeat split; [repeat constructor; cbn; auto|]. left. eauto 10. }
  destruct (io_ReadAll file w2) as [[fileContents [e|]] w3].
  { eexists _, _, _. repeat split; [repeat constructor; cbn; auto|]. left. eauto 10. }
  eexists _, _, _. repeat split; [repeat constructor; cbn; auto|]. right. eauto.
Qed.

Lemma relayUnits_shape units :
  forall m, exists r m' t,
    relayUnits units m = (r, m', t) /\
    service m' = service m /\
    Forall (fun ev => is_write ev = true) t /\
    (r = Ok tt /\ failed_write t = None \/ exists e, r = Err e /\ write_error e).
Proof.
  induction units as [|buf rest IH]; intros m.
  - exists (Ok tt), m, []. cbn. repeat split; auto.
  - rewrite relayUnits_step.
    destruct (w_Write buf (world m)) as [[n [e|]] w1].
    { eexists _, _, _. repeat split; [repeat constructor|].
      right. eexists. split; [reflexivity|]. exists e. auto. }
    destruct (w_Write [newline] w1) as [[n' [e|]] w2].
    { eexists _, _, _. repeat split; [repeat constructor|].
      right. eexists. split; [reflexivity|]. exists e. auto. }
    destruct (IH {| service := service m; world := w2 |})
      as (r & m3 & t & Hrun & Hsvc & Hw & Hres).
    cbv beta iota zeta. rewrite Hrun. eexists _, _, _. split; [reflexivity|].
    split; [exact Hsvc|]. split; [repeat constructor; exact Hw|]. exact Hres.
Qed.

Lemma relay_shape stream m :
  exists r m' t,
    relay stream m = (r, m', t) /\
    service m' = service m /\
    Forall (fun ev => is_write ev = true) t /\
    (r = Ok tt /\ failed_write t = None \/ exists e, r = Err e /\ relay_error e).
Proof.
  rewrite relay_run.
  destruct (relayUnits_shape (stream_units stream) m) as (r & m' & t & Hrun & Hsvc & Hw & Hres).
  rewrite Hrun. destruct Hres as [[-> Hfw]|(e & -> & He)].
  - unfold end_of_stream. destruct (stream_Err stream) as [c|] eqn:Hc.
    + destruct (errors_Is_EOF c) eqn:Heof.
      * eexists _, _, _. repeat split; auto.
      * eexists _, _, _. repeat split; auto. right. eexists. split; [reflexivity|].
        right. exists c. auto.
    + eexists _, _, _. repeat split; auto.
  - eexists _, _, _. repeat split; auto. right. exists e. split; [reflexivity|]. left. exact He.
Qed.

Lemma generateCompletion_nil integrationID apiToken m :
  generateCompletion integrationID apiToken None m
  = match datasetsInit_Do integrationID apiToken m with
    | (Ok None, m1, t1) => (Panic, m1, t1)
    | (Ok (Some e), m1, t1) => (Err e, m1, t1)
    | (Err e, m1, t1) => (Err e, m1, t1)
    | (Panic, m1, t1) => (Panic, m1, t1)
    end.
Proof.
  unfold generateCompletion. unfold bind at 1.
  destruct (datasetsInit_Do integrationID apiToken m) as [[[[e|]| |] m1] t1];
    try reflexivity; unfold fail, panic; rewrite app_nil_r; reflexivity.
Qed.

(** Every run of [generateCompletion] takes one of the five paths. *)
Lemma generateCompletion_path integrationID apiToken req m :
  exists err m1 t1 r m' t,
    datasetsInit_Do integrationID apiToken m = (Ok err, m1, t1) /\
    generateCompletion integrationID apiToken req m = (r, m', t) /\
    service m' = service m1 /\
    Forall (build_of integrationID apiToken) t1 /\
    path integrationID apiToken req t1 err r t.
Proof.
  destruct (datasetsInit_Do_shape integrationID apiToken m)
    as (err & m1 & t1 & Hinit & _ & _ & Hbuild & Herr & _ & _).
  exists err, m1, t1.
  destruct req as [rq|].
  2: { rewrite generateCompletion_nil, Hinit. destruct err as [e|].
       - eexists _, _, _. repeat split; auto. apply path_ensure_failed; auto.
       - eexists _, _, _. repeat split; auto. apply path_nil_request; auto. }
  rewrite generateCompletion_run, Hinit. destruct err as [e|].
  { eexists _, _, _. repeat split; auto. apply path_ensure_failed; auto. }
  assert (Hforward : forall context m2 t2,
             service m2 = service m1 ->
             Forall (retrieval_of integrationID apiToken) t2 ->
             injected context ->
             exists r m' t,
               (let '(r, m3, t3) := forward apiToken rq context m2 in (r, m3, t1 ++ t2 ++ t3))
               = (r, m', t) /\
               service m' = service m1 /\
               path integrationID apiToken (Some rq) t1 None r t).
  { intros context m2 t2 Hsvc Ht2 Hctx. unfold forward.
    destruct (copilot_ChatCompletions _ _ _ (world m2)) as [[stream [c|]] w].
    - eexists _, _, _. split; [reflexivity|]. split; [exact Hsvc|].
      eapply path_stream_failed; eauto.
    - destruct (relay_shape stream {| service := service m2; world := w |})
        as (r & m3 & tw & Hrun & Hsvc3 & Hw & Hres).
      cbv beta iota zeta. rewrite Hrun.
      cbn [service] in Hsvc3.
      eexists _, _, _. split; [reflexivity|]. split; [cbn [service]; congruence|].
      eapply path_relayed; eauto. }
  rewrite scanMessages_run.
  destruct (find qualifies (rev (Messages rq))) as [msg|].
  - destruct (retrieve_shape integrationID apiToken msg m1)
      as (r & m2 & t2 & Hret & Hsvc & Ht2 & Hr).
    rewrite Hret. destruct Hr as [(e & -> & He)|(context & -> & Hctx)].
    + eexists _, _, _. split; [reflexivity|]. repeat split; auto.
      eapply path_retrieval_failed; eauto.
    + destruct (Hforward context m2 t2 Hsvc Ht2 Hctx) as (r & m' & t & Hrun & Hsvc' & Hpath).
      exists r, m', t. auto.
  - destruct (Hforward [] m1 [] eq_refl (Forall_nil _) (or_introl eq_refl))
      as (r & m' & t & Hrun & Hsvc' & Hpath).
    exists r, m', t. auto.
Qed.

End Paths.

(** ** Events by kind *)

Section Kinds.
Variables (integrationID apiToken : string).

Lemma build_written t : Forall (build_of integrationID apiToken) t -> written t = [].
Proof. by_kind. Qed.
Lemma build_chat t : Forall (build_of integrationID apiToken) t -> chat_calls t = [].
Proof. by_kind. Qed.
Lemma build_closes t : Forall (build_of integrationID apiToken) t -> closes t = [].
Proof. by_kind. Qed.
Lemma build_all t : Forall (build_of integrationID apiToken) t -> build_calls t = t.
Proof. by_kind. Qed.

Lemma retrieval_written t : Forall (retrieval_of integrationID apiToken) t -> written t = [].
Proof. by_kind. Qed.
Lemma retrieval_chat t : Forall (retrieval_of integrationID apiToken) t -> chat_calls t = [].
Proof. by_kind. Qed.
Lemma retrieval_closes t : Forall (retrieval_of integrationID apiToken) t -> closes t = [].
Proof. by_kind. Qed.
Lemma retrieval_build t : Forall (retrieval_of integrationID apiToken) t -> build_calls t = [].
Proof. by_kind. Qed.

Lemma write_chat t : Forall (fun ev => is_write ev = true) t -> chat_calls t = [].
Proof. by_kind. Qed.
Lemma write_closes t : Forall (fun ev => is_write ev = true) t -> closes t = [].
Proof. by_kind. Qed.
Lemma write_build t : Forall (fun ev => is_write ev = true) t -> build_calls t = [].
Proof. by_kind. Qed.

Lemma closes_app t1 t2 : closes (t1 ++ t2) = closes t1 ++ closes t2.
Proof. apply filter_app. Qed.


End Kinds.

(** ** generateCompletion: errors, order and state *)

Section GenerateCompletionMore.
Context `{Collaborators}.
Variables (integrationID apiToken : string).

Lemma relay_error_is_late e :
  relay_error e ->
  ~ (ensure_error e \/ retrieval_error e \/ exists c, e = streamError c).
Proof.
  unfold relay_error, write_error, ensure_error, retrieval_error, selectError.
  intros Hlate Hearly.
  assert (Hform : exists msg c,
             e = fmt_Errorf_w msg c /\
             (msg = "failed to write to stream: %w" \/
              msg = "failed to write delimiter to stream: %w" \/
              msg = "failed to read from stream: %w")%string).
  { destruct Hlate as [(c & [-> | ->])|(c & -> & _)]; eexists _, c; split;
      try reflexivity; auto. }
  destruct Hform as (msg & c & -> & Hmsg).
  destruct Hearly as [(c' & [He|He])|[[(c' & He)|[He|[(c' & He)|(c' & He)]]]|(c' & He)]];
    cbv in He; inversion He; subst msg;
    destruct Hmsg as [Hm|[Hm|Hm]]; discriminate Hm.
Qed.

(** X3: every error [generateCompletion] returns is one of ten: the two
    of the build, the four of the retrieval (of which the selection error
    alone does not wrap its cause), the one of the call of the completion
    service, and the three of the relay (a read error only when it is not
    [io.EOF]). *)
Theorem generateCompletion_errors req m e m' t :
  generateCompletion integrationID apiToken req m = (Err e, m', t) ->
  (exists c, e = fmt_Errorf_w
                   ("error reading files from " +++ dquote +++ "data" +++ dquote
                      +++ " directory: %w") c) \/
  (exists c, e = fmt_Errorf_w "error generating datasets: %w" c) \/
  (exists c, e = fmt_Errorf_w "error creating embedding for user message: %w" c) \/
  e = errors_New "error computing best dataset" \/
  (exists c, e = fmt_Errorf_w "failed to open documents: %w" c) \/
  (exists c, e = fmt_Errorf_w "failed to read documents: %w" c) \/
  (exists c, e = fmt_Errorf_w "failed to get chat completions stream: %w" c) \/
  (exists c, e = fmt_Errorf_w "failed to write to stream: %w" c) \/
  (exists c, e = fmt_Errorf_w "failed to write delimiter to stream: %w" c) \/
  (exists c, e = fmt_Errorf_w "failed to read from stream: %w" c /\
             errors_Is_EOF c = false).
Proof.
  intros Hrun.
  destruct (generateCompletion_path integrationID apiToken req m)
    as (err & m1 & t1 & r & m2 & t' & _ & Hrun' & _ & _ & Hpath).
  rewrite Hrun in Hrun'. inversion Hrun'; subst r m2 t'. clear Hrun'.
  inversion Hpath; subst.
  - match goal with He : ensure_error _ |- _ => destruct He as (c & [-> | ->]) end.
    + left. exists c. reflexivity.
    + right; left. exists c. reflexivity.
  - match goal with He : retrieval_error _ |- _ =>
      destruct He as [(c & ->)|[->|[(c & ->)|(c & ->)]]] end.
    + do 2 right; left. exists c. reflexivity.
    + do 3 right; left. reflexivity.
    + do 4 right; left. exists c. reflexivity.
    + do 5 right; left. exists c. reflexivity.
  - do 6 right; left. eexists. reflexivity.
  - match goal with Hd : _ \/ _ |- _ => destruct Hd as [[Hok _]|(e' & Heq & He)] end;
      [discriminate Hok|].
    inversion Heq; subst e'.
    destruct He as [(c & [-> | ->])|(c & -> & Heof)].
    + do 7 right; left. exists c. reflexivity.
    + do 8 right; left. exists c. reflexivity.
    + do 9 right. exists c. split; [reflexivity|exact Heof].
Qed.

(** X4: no byte reaches the caller unless the completion service has
    been called: a run without that call writes nothing. *)
Theorem nothing_written_before_completion_call req m :
  chat_calls (snd (generateCompletion integrationID apiToken req m)) = [] ->
  written (snd (generateCompletion integrationID apiToken req m)) = [].
Proof.
  destruct (generateCompletion_path integrationID apiToken req m)
    as (err & m1 & t1 & r & m2 & t & _ & Hrun & _ & Hbuild & Hpath).
  rewrite Hrun. cbn [snd].
  pose proof (build_written _ _ _ Hbuild) as Hw1.
  pose proof (build_chat _ _ _ Hbuild) as Hc1.
  inversion Hpath; subst; intros Hchat.
  - exact Hw1.
  - exact Hw1.
  - rewrite written_app, Hw1. cbn. eapply retrieval_written; eassumption.
  - exfalso. rewrite !chat_calls_app, Hc1 in Hchat.
    erewrite retrieval_chat in Hchat by eassumption. discriminate Hchat.
  - exfalso. rewrite !chat_calls_app, Hc1 in Hchat.
    erewrite retrieval_chat in Hchat by eassumption. discriminate Hchat.
Qed.

(** X5: what every call that leaves the process is made with: the build
    reads the directory "data", the datasets and the embedding are asked
    for with the integration id and the token of the request, and the
    completion service with the fixed id "copilot-chat" (not the id of
    the request), the token of the request, the model gpt-4o and
    streaming on. *)
Theorem outbound_calls_credentials req m ev :
  In ev (snd (generateCompletion integrationID apiToken req m)) ->
  made_with integrationID apiToken ev.
Proof.
  destruct (generateCompletion_path integrationID apiToken req m)
    as (err & m1 & t1 & r & m2 & t & _ & Hrun & _ & Hbuild & Hpath).
  rewrite Hrun. cbn [snd].
  assert (Hb : In ev t1 -> made_with integrationID apiToken ev).
  { intros Hin. pose proof (proj1 (Forall_forall _ t1) Hbuild ev Hin) as Hev.
    destruct ev; cbn in *; auto; contradiction. }
  assert (Hretr : forall t2, Forall (retrieval_of integrationID apiToken) t2 ->
                             In ev t2 -> made_with integrationID apiToken ev).
  { intros t2 Hall Hin. pose proof (proj1 (Forall_forall _ t2) Hall ev Hin) as Hev.
    destruct ev; cbn in *; auto; contradiction. }
  assert (Hwr : forall tw, Forall (fun ev => is_write ev = true) tw ->
                           In ev tw -> made_with integrationID apiToken ev).
  { intros tw Hall Hin. pose proof (proj1 (Forall_forall _ tw) Hall ev Hin) as Hev.
    destruct ev; cbn in *; auto; discriminate. }
  inversion Hpath; subst; intros Hin.
  - auto.
  - auto.
  - apply in_app_or in Hin as [Hin|Hin]; eauto.
  - apply in_app_or in Hin as [Hin|Hin]; [auto|].
    apply in_app_or in Hin as [Hin|[<-|[]]]; [eauto|]. cbn. auto.
  - apply in_app_or in Hin as [Hin|Hin]; [auto|].
    apply in_app_or in Hin as [Hin|[<-|Hin]]; [eauto| cbn; auto |].
    apply in_app_or in Hin as [Hin|[<-|[]]]; [eauto|exact I].
Qed.

Lemma path_build_calls req t1 err r t :
  Forall (build_of integrationID apiToken) t1 ->
  path integrationID apiToken req t1 err r t ->
  build_calls t = t1.
Proof.
  intros Hbuild Hpath. pose proof (build_all _ _ _ Hbuild) as Hb1.
  inversion Hpath; subst; auto;
    rewrite ?build_calls_app, Hb1;
    erewrite retrieval_build by eassumption; cbn [app].
  - apply app_nil_r.
  - cbn. apply app_nil_r.
  - change (EvChatCompletions "copilot-chat" apiToken (forwarded rq context) :: tw ++ [EvClose])
      with ([EvChatCompletions "copilot-chat" apiToken (forwarded rq context)]
              ++ tw ++ [EvClose]).
    rewrite !build_calls_app. rewrite (write_build tw) by assumption. cbn. apply app_nil_r.
Qed.

(** X6: the stream of the completion service is closed exactly when it
    was obtained.  When the run ends with nil or with an error of the
    relay, [Close] is its last event and its only [Close]; when it ends
    earlier (in the build, on a nil request, in the retrieval, or because
    the completion service refused the call) there is no [Close]. *)
Theorem stream_closed_once req m r m' t :
  generateCompletion integrationID apiToken req m = (r, m', t) ->
  (r = Ok tt \/ (exists e, r = Err e /\ relay_error e) ->
   exists t', t = t' ++ [EvClose] /\ closes t' = []) /\
  (r = Panic \/
   (exists e, r = Err e /\
              (ensure_error e \/ retrieval_error e \/ exists c, e = streamError c)) ->
   closes t = []).
Proof.
  intros Hrun.
  destruct (generateCompletion_path integrationID apiToken req m)
    as (err & m1 & t1 & r' & m2 & t' & _ & Hrun' & _ & Hbuild & Hpath).
  rewrite Hrun in Hrun'. inversion Hrun'; subst r' m2 t'. clear Hrun'.
  pose proof (build_closes _ _ _ Hbuild) as Hc1.
  assert (Hearly : forall e, ensure_error e \/ retrieval_error e \/
                             (exists c, e = streamError c) ->
                             ~ (@Err unit e = Ok tt \/ exists e', @Err unit e = Err e' /\ relay_error e')).
  { intros e Hk [Hok|(e' & Heq & Hlate)]; [discriminate Hok|].
    inversion Heq; subst e'. exact (relay_error_is_late e Hlate Hk). }
  inversion Hpath; subst.
  - split; [|intros _; exact Hc1].
    intros Hlate; exfalso.
    match goal with Hk : ensure_error _ |- _ => exact (Hearly _ (or_introl Hk) Hlate) end.
  - split; [intros [Hok|(e & Heq & _)]; discriminate|intros _; exact Hc1].
  - split.
    + intros Hlate; exfalso.
      match goal with Hk : retrieval_error _ |- _ =>
        exact (Hearly _ (or_intror (or_introl Hk)) Hlate) end.
    + intros _. rewrite closes_app, Hc1. cbn. eapply retrieval_closes; eassumption.
  - split.
    + intros Hlate; exfalso.
      exact (Hearly (streamError c) (or_intror (or_intror (ex_intro _ c eq_refl))) Hlate).
    + intros _. rewrite !closes_app, Hc1. erewrite retrieval_closes by eassumption.
      reflexivity.
  - split.
    + intros _.
      exists (t1 ++ t2 ++ EvChatCompletions "copilot-chat" apiToken (forwarded rq context)
                :: tw).
      split; [rewrite <- !app_assoc; reflexivity|].
      change (EvChatCompletions "copilot-chat" apiToken (forwarded rq context) :: tw)
        with ([EvChatCompletions "copilot-chat" apiToken (forwarded rq context)] ++ tw).
      rewrite !closes_app, Hc1. erewrite retrieval_closes by eassumption.
      rewrite (write_closes tw) by assumption. reflexivity.
    + match goal with Hd : _ \/ _ |- _ => rename Hd into Hres end.
      intros [Hp|(e & Heq & Hk)]; exfalso.
      * destruct Hres as [[Hok _]|(e' & Heq' & _)]; congruence.
      * subst r. destruct Hres as [[Hok _]|Hex]; [discriminate Hok|].
        exact (Hearly e Hk (or_intror Hex)).
Qed.

(** X7: a call of [generateCompletion] runs the build exactly when the
    service has not run it yet (its first event is then the enumeration
    of "data"); after any call, whatever its outcome, the [sync.Once] is
    done and the public key is the same; and a service whose build has
    run is left as it is. *)
Theorem generateCompletion_builds_iff_not_built req m :
  let run := generateCompletion integrationID apiToken req m in
  (build_calls (snd run) = [] <-> datasetsInit (service m) = true) /\
  (datasetsInit (service m) = false -> exists rest, snd run = EvReadDir "data" :: rest) /\
  datasetsInit (service (snd (fst run))) = true /\
  pubKey (service (snd (fst run))) = pubKey (service m) /\
  (datasetsInit (service m) = true -> service (snd (fst run)) = service m).
Proof.
  cbv zeta.
  destruct (generateCompletion_path integrationID apiToken req m)
    as (err & m1 & t1 & r & m2 & t & Hinit & Hrun & Hsvc & Hbuild & Hpath).
  destruct (datasetsInit_Do_shape integrationID apiToken m)
    as (err' & m1' & t1' & Hinit' & Hdone & Hkey & _ & _ & Hwas & Hnot).
  rewrite Hinit in Hinit'. inversion Hinit'; subst err' m1' t1'. clear Hinit'.
  rewrite Hrun. cbn [fst snd]. rewrite Hsvc.
  rewrite (path_build_calls _ _ _ _ _ Hbuild Hpath).
  split; [|split; [|split; [exact Hdone|split; [exact Hkey|]]]].
  - split.
    + intros ->. destruct (datasetsInit (service m)); [reflexivity|].
      destruct (Hnot eq_refl) as (rest & Hrest). discriminate Hrest.
    + intros Hd. apply Hwas. exact Hd.
  - intros Hd. destruct (Hnot Hd) as (rest & ->).
    inversion Hpath; subst; cbn; eauto.
  - intros Hd. destruct (Hwas Hd) as (_ & -> & _). reflexivity.
Qed.

(** X8: when the generation of the datasets fails, the request ends with
    the wrapped error, but what [GenerateDatasets] returned beside the
    error has been stored as the corpus and the [sync.Once] is done: it
    is the corpus of every later request. *)
Theorem failed_generation_keeps_returned_datasets req m files w ds e w' :
  datasetsInit (service m) = false ->
  os_ReadDir "data" (world m) = ((files, None), w) ->
  embedding_GenerateDatasets integrationID apiToken
    (map (fun file => filepath_Join "data" file) files) w = ((ds, Some e), w') ->
  generateCompletion integrationID apiToken req m
  = (Err (fmt_Errorf_w "error generating datasets: %w" e),
     {| service := {| pubKey := pubKey (service m); datasets := ds; datasetsInit := true |};
        world := w' |},
     [EvReadDir "data";
      EvGenerateDatasets integrationID apiToken
        (map (fun file => filepath_Join "data" file) files)]).
Proof.
  intros Hd Hr Hg.
  pose proof (datasetsInit_Do_build integrationID apiToken _ _ _ _ _ _ Hd Hr Hg) as Hinit.
  destruct req as [rq|].
  - rewrite generateCompletion_run, Hinit. reflexivity.
  - rewrite generateCompletion_nil, Hinit. reflexivity.
Qed.

(** X9: when the selection returns no dataset (a nil pointer and no
    error), the conversation goes to the completion service as it came,
    after the one embedding call; no document is opened. *)
Theorem no_dataset_selected_forwards_unchanged req m m1 t1 msg emb w1 :
  datasetsInit_Do integrationID apiToken m = (Ok None, m1, t1) ->
  latest_user_message (Messages req) = Some msg ->
  embedding_Create integrationID apiToken (Content msg) (world m1) = ((emb, None), w1) ->
  embedding_FindBestDataset (datasets (service m1)) emb = (None, None) ->
  chat_calls (snd (generateCompletion integrationID apiToken (Some req) m))
  = [{| CC_Messages := Messages req; CC_Model := "gpt-4o"%string; CC_Stream := true |}] /\
  filter is_retrieval (snd (generateCompletion integrationID apiToken (Some req) m))
  = [EvCreate integrationID apiToken (Content msg)].
Proof.
  intros Hinit Hlatest Hcreate Hbest.
  rewrite generateCompletion_run, Hinit.
  destruct (datasetsInit_Do_returns integrationID apiToken m)
    as (err & m1' & t1' & Hinit' & _ & _ & Hbuild).
  rewrite Hinit in Hinit'. inversion Hinit'; subst err m1' t1'.
  assert (Hc1 : chat_calls t1 = []) by (rewrite <- Hbuild; apply build_calls_chat).
  assert (Hr1 : filter is_retrieval t1 = [])
    by (rewrite <- Hbuild; apply build_calls_retrieval).
  rewrite scanMessages_run. unfold latest_user_message in Hlatest. rewrite Hlatest.
  unfold retrieve. rewrite Hcreate, Hbest.
  destruct (forward_facts apiToken req [] {| service := service m1; world := w1 |})
    as (r3 & m3 & t3 & Hfw & _ & Hc3 & _ & _ & Hr3).
  rewrite Hfw. cbn [snd].
  rewrite !chat_calls_app, !filter_app, Hc1, Hr1, Hc3, Hr3. split; reflexivity.
Qed.

(** X10: when a dataset is selected and its document loads, the
    retrieval is three steps in this order: the embedding of the latest
    user message, the opening of the file named by the selected dataset,
    and the reading of that file. *)
Theorem retrieval_steps_in_order
        req m m1 t1 msg emb w1 dataset file w2 fileContents w3 :
  datasetsInit_Do integrationID apiToken m = (Ok None, m1, t1) ->
  latest_user_message (Messages req) = Some msg ->
  embedding_Create integrationID apiToken (Content msg) (world m1) = ((emb, None), w1) ->
  embedding_FindBestDataset (datasets (service m1)) emb = (Some dataset, None) ->
  os_Open (Dataset_Filename dataset) w1 = ((file, None), w2) ->
  io_ReadAll file w2 = ((fileContents, None), w3) ->
  filter is_retrieval (snd (generateCompletion integrationID apiToken (Some req) m))
  = [EvCreate integrationID apiToken (Content msg);
     EvOpen (Dataset_Filename dataset);
     EvReadAll].
Proof.
  intros Hinit Hlatest Hcreate Hbest Hopen Hread.
  rewrite generateCompletion_run, Hinit.
  destruct (datasetsInit_Do_returns integrationID apiToken m)
    as (err & m1' & t1' & Hinit' & _ & _ & Hbuild).
  rewrite Hinit in Hinit'. inversion Hinit'; subst err m1' t1'.
  assert (Hr1 : filter is_retrieval t1 = [])
    by (rewrite <- Hbuild; apply build_calls_retrieval).
  rewrite scanMessages_run. unfold latest_user_message in Hlatest. rewrite Hlatest.
  unfold retrieve. rewrite Hcreate, Hbest, Hopen, Hread.
  destruct (forward_facts apiToken req [systemMessage fileContents]
              {| service := service m1; world := w3 |})
    as (r3 & m3 & t3 & Hfw & _ & _ & _ & _ & Hr3).
  rewrite Hfw. cbn [snd].
  rewrite !filter_app, Hr1, Hr3. reflexivity.
Qed.

End GenerateCompletionMore.

(** ** The relay, write by write *)

Section RelayMore.
Context `{Collaborators}.

Lemma relayUnits_writes units :
  forall m,
    let t := snd (relayUnits units m) in
    (exists k, write_buffers t = firstn k (unit_then_newline units)) /\
    (failed_write t = None -> write_buffers t = unit_then_newline units) /\
    (forall e, failed_write t = Some e ->
               exists t' buf n,
                 t = t' ++ [EvWrite buf n (Some e)] /\ failed_write t' = None /\
                 (fst (fst (relayUnits units m)) = Err (writeError e) \/
                  fst (fst (relayUnits units m)) = Err (delimiterError e))).
Proof.
  induction units as [|buf rest IH]; intros m; cbv zeta.
  - cbn. split; [exists 0; reflexivity|]. split; [reflexivity|discriminate].
  - rewrite relayUnits_step.
    destruct (w_Write buf (world m)) as [[n [e|]] w1].
    { cbn. split; [exists 1; reflexivity|]. split; [discriminate|].
      intros e' He'. inversion He'; subst e'. exists [], buf, n. auto. }
    destruct (w_Write [newline] w1) as [[n' [e|]] w2].
    { cbn. split; [exists 2; reflexivity|]. split; [discriminate|].
      intros e' He'. inversion He'; subst e'.
      exists [EvWrite buf n None], [newline], n'. auto. }
    specialize (IH {| service := service m; world := w2 |}). cbv zeta in IH.
    cbv beta iota zeta.
    destruct (relayUnits rest {| service := service m; world := w2 |}) as [[r m3] t].
    cbn [fst snd] in *. destruct IH as ((k & Hk) & Hall & Hfail).
    cbn [write_buffers flat_map failed_write unit_then_newline app].
    fold (write_buffers t). fold (unit_then_newline rest).
    split; [exists (S (S k)); cbn [firstn]; rewrite Hk; reflexivity|].
    split; [intros Hnone; rewrite (Hall Hnone); reflexivity|].
    intros e He. destruct (Hfail e He) as (t' & b & n0 & -> & Hnone & Hres).
    exists (EvWrite buf n None :: EvWrite [newline] n' None :: t'), b, n0. auto.
Qed.

(** X11: the relay hands to [Write], for every unit in order, the unit
    and then a buffer holding one newline, as two calls; what it has
    handed over when it ends is a prefix of that sequence, and the whole
    of it when no write has failed.  It makes no other kind of call. *)
Theorem relay_write_sequence stream m :
  let t := snd (relay stream m) in
  filter is_write t = t /\
  (exists k, write_buffers t = firstn k (unit_then_newline (stream_units stream))) /\
  (failed_write t = None -> write_buffers t = unit_then_newline (stream_units stream)).
Proof.
  cbv zeta. rewrite relay_run.
  destruct (relayUnits_shape (stream_units stream) m) as (r & m' & t & Hrun & _ & Hw & _).
  pose proof (relayUnits_writes (stream_units stream) m) as Hseq. cbv zeta in Hseq.
  rewrite Hrun in *. cbn [fst snd] in Hseq.
  destruct Hseq as (Hprefix & Hall & _).
  assert (Hfilter : filter is_write t = t).
  { clear - Hw. induction Hw as [|ev t Hev _ IH]; [reflexivity|].
    cbn. rewrite Hev, IH. reflexivity. }
  destruct r; cbn [snd]; auto.
Qed.

(** X12: the relay stops at the first write that fails: that write is
    its last event, no write before it failed, and the function returns
    its error wrapped as a failure to write the unit or the delimiter. *)
Theorem relay_stops_at_first_failed_write stream m e :
  failed_write (snd (relay stream m)) = Some e ->
  exists t' buf n,
    snd (relay stream m) = t' ++ [EvWrite buf n (Some e)] /\
    failed_write t' = None /\
    (fst (fst (relay stream m)) = Err (fmt_Errorf_w "failed to write to stream: %w" e) \/
     fst (fst (relay stream m))
     = Err (fmt_Errorf_w "failed to write delimiter to stream: %w" e)).
Proof.
  rewrite relay_run.
  pose proof (relayUnits_writes (stream_units stream) m) as Hseq. cbv zeta in Hseq.
  destruct (relayUnits (stream_units stream) m) as [[r m'] t].
  cbn [fst snd] in Hseq. destruct Hseq as (_ & _ & Hfail).
  assert (Hsnd : snd (match r with
                      | Ok _ => (end_of_stream stream, m', t)
                      | Err e0 => (Err e0, m', t)
                      | Panic => (Panic, m', t)
                      end) = t) by (destruct r; reflexivity).
  rewrite Hsnd. intros He.
  destruct (Hfail e He) as (t' & buf & n & -> & Hnone & Hres).
  exists t', buf, n. split; [reflexivity|]. split; [exact Hnone|].
  destruct Hres as [-> | ->]; cbn; auto.
Qed.

End RelayMore.

(** ** The handler, past the signature *)

Section HandlerMore.
Context `{Collaborators}.

(** The handler on a request whose body is read and whose signature
    verifies. *)
Lemma ChatCompletion_accepted r m body req jerr :
  Body r = (body, None) ->
  validPayload body (signature_of r) (pubKey (service m)) = (true, None) ->
  json_Unmarshal body = (req, jerr) ->
  ChatCompletion r m
  = match jerr with
    | Some _ =>
        (Ok tt,
         {| service := service m; world := w_WriteHeader StatusBadRequest (world m) |},
         [EvUnmarshal body; EvWriteHeader StatusBadRequest])
    | None =>
        match generateCompletion (integrationID_of r) (apiToken_of r) req m with
        | (Ok _, m', t) => (Ok tt, m', EvUnmarshal body :: t)
        | (Err _, m', t) =>
            (Ok tt,
             {| service := service m';
                world := w_WriteHeader StatusInternalServerError (world m') |},
             EvUnmarshal body :: t ++ [EvWriteHeader StatusInternalServerError])
        | (Panic, m', t) => (Panic, m', EvUnmarshal body :: t)
        end
    end.
Proof.
  intros Hb Hv Hj. destruct m as [s w].
  unfold ChatCompletion, signature_of, integrationID_of, apiToken_of in *. rewrite Hb.
  unfold bind at 1. unfold get_service. cbn [service] in *. rewrite Hv. cbn [negb].
  unfold bind at 1. unfold call at 1. cbn [world service]. rewrite Hj.
  destruct jerr as [e|]; [reflexivity|].
  unfold bind, try, WriteHeader, call, ret.
  destruct (generateCompletion _ _ req {| service := s; world := w |}) as [[[[]|e|] m'] t];
    cbn; rewrite ?app_nil_r; reflexivity.
Qed.

(** X15: a body that is not a conversation, under a signature that
    verifies, is answered 400: the body has been parsed and nothing else
    has happened (no build, no call, the service as it was). *)
Theorem malformed_body_answers_400 r m body req e :
  Body r = (body, None) ->
  validPayload body (signature_of r) (pubKey (service m)) = (true, None) ->
  json_Unmarshal body = (req, Some e) ->
  ChatCompletion r m
  = (Ok tt,
     {| service := service m; world := w_WriteHeader 400 (world m) |},
     [EvUnmarshal body; EvWriteHeader 400]).
Proof.
  intros Hb Hv Hj. rewrite (ChatCompletion_accepted _ _ _ _ _ Hb Hv Hj). reflexivity.
Qed.



(** X17: a request whose body is read, whose signature verifies and whose
    body is the JSON value null (no error, [req] left nil) goes through
    the ensure-step with [req] nil.  When the ensure-step returns nil the
    handler panics at [req.Messages], after everything the ensure-step did
    (the build, on a service not yet built); when it returns an error the
    handler answers 500 and does not panic.  On a service already built
    the ensure-step does nothing and returns nil, so the panic it is. *)
Theorem null_body_panics_after_ensure_step r m body :
  Body r = (body, None) ->
  validPayload body (signature_of r) (pubKey (service m)) = (true, None) ->
  json_Unmarshal body = (None, None) ->
  exists err m1 t1,
    datasetsInit_Do (integrationID_of r) (apiToken_of r) m = (Ok err, m1, t1) /\
    ChatCompletion r m
    = match err with
      | None => (Panic, m1, EvUnmarshal body :: t1)
      | Some _ =>
          (Ok tt,
           {| service := service m1;
              world := w_WriteHeader StatusInternalServerError (world m1) |},
           EvUnmarshal body :: t1 ++ [EvWriteHeader StatusInternalServerError])
      end /\
    (datasetsInit (service m) = true -> err = None /\ m1 = m /\ t1 = []).
Proof.
  intros Hb Hv Hj.
  destruct (datasetsInit_Do_shape (integrationID_of r) (apiToken_of r) m)
    as (err & m1 & t1 & Hinit & _ & _ & _ & _ & Hdone & _).
  exists err, m1, t1. split; [exact Hinit|]. split; [|exact Hdone].
  rewrite (ChatCompletion_accepted _ _ _ _ _ Hb Hv Hj).
  rewrite generateCompletion_nil, Hinit.
  destruct err as [e|]; reflexivity.
Qed.

(** X18: when [generateCompletion] returns an error, the handler sets
    the status 500 after everything [generateCompletion] did: the bytes
    already written to the caller stay written and come before the
    status. *)
Theorem handler_sets_500_after_the_stream r m body req e m' t :
  Body r = (body, None) ->
  validPayload body (signature_of r) (pubKey (service m)) = (true, None) ->
  json_Unmarshal body = (req, None) ->
  generateCompletion (integrationID_of r) (apiToken_of r) req m = (Err e, m', t) ->
  snd (ChatCompletion r m) = EvUnmarshal body :: t ++ [EvWriteHeader 500] /\
  written (snd (ChatCompletion r m)) = written t /\
  fst (fst (ChatCompletion r m)) = Ok tt.
Proof.
  intros Hb Hv Hj Hrun.
  rewrite (ChatCompletion_accepted _ _ _ _ _ Hb Hv Hj), Hrun. cbn [fst snd].
  split; [reflexivity|]. split; [|reflexivity].
  change (EvUnmarshal body :: t ++ [EvWriteHeader StatusInternalServerError])
    with ([EvUnmarshal body] ++ t ++ [EvWriteHeader StatusInternalServerError]).
  rewrite !written_app. cbn. apply app_nil_r.
Qed.

(** X19: once the build has run, no request changes the service (the
    corpus, the key, the flag) and no request runs the build again,
    whatever the request is and however it ends. *)
Theorem built_service_is_frozen r m :
  datasetsInit (service m) = true ->
  service (snd (fst (ChatCompletion r m))) = service m /\
  build_calls (snd (ChatCompletion r m)) = [].
Proof.
  intros Hd. destruct (Body r) as [body [e|]] eqn:Hb.
  { rewrite (ChatCompletion_unreadable_body _ _ _ _ Hb). auto. }
  destruct (validPayload body (signature_of r) (pubKey (service m))) as [b [e|]] eqn:Hv.
  { rewrite (ChatCompletion_signature_error _ _ _ _ _ Hb Hv). auto. }
  destruct b.
  2: { destruct (ChatCompletion_signature_invalid _ _ _ Hb Hv) as (n & err & w & ->). auto. }
  destruct (json_Unmarshal body) as [req [e|]] eqn:Hj.
  { rewrite (ChatCompletion_accepted _ _ _ _ _ Hb Hv Hj). auto. }
  rewrite (ChatCompletion_accepted _ _ _ _ _ Hb Hv Hj).
  destruct (generateCompletion_path (integrationID_of r) (apiToken_of r) req m)
    as (err & m1 & t1 & r' & m2 & t & Hinit & Hrun & Hsvc & Hbuild & Hpath).
  rewrite (datasetsInit_Do_done _ _ _ Hd) in Hinit. inversion Hinit; subst err m1 t1.
  pose proof (path_build_calls _ _ _ _ _ _ _ Hbuild Hpath) as Hnone.
  rewrite Hrun.
  destruct r' as [[]|e|]; cbn [fst snd service]; (split; [exact Hsvc|]).
  - exact Hnone.
  - change (EvUnmarshal body :: t ++ [EvWriteHeader StatusInternalServerError])
      with ([EvUnmarshal body] ++ t ++ [EvWriteHeader StatusInternalServerError]).
    rewrite !build_calls_app, Hnone. reflexivity.
  - exact Hnone.
Qed.

End HandlerMore.

(** ** The data contract of the batch job template *)

Section SunSimpleFacts.
Import SunSimple.
Local Open Scope Z_scope.

Lemma perform_keeps_cap c op : gWaitTime c <= 20000 -> gWaitTime (perform c op) <= 20000.
Proof.
  intros Hc. destruct op as [[v|]|a|]; cbn.
  - destruct (20000 <? v) eqn:Hv; [lia|]. apply Z.ltb_ge in Hv. exact Hv.
  - destruct (20000 <? gWaitTime c); lia.
  - exact Hc.
  - lia.
Qed.

(** X20: the wait time of the contract never exceeds 20000: every call
    of [parmWaitTime] returns at most 20000 and returns what it has
    stored, and after any sequence of calls on a new contract
    ([parmWaitTime], [parmInfoText] and [initialize], with or without
    arguments) the stored wait time is at most 20000. *)
Theorem wait_time_never_exceeds_cap :
  (forall a c, fst (parmWaitTime a c) <= 20000 /\
               gWaitTime (snd (parmWaitTime a c)) = fst (parmWaitTime a c)) /\
  (forall ops, gWaitTime (performAll ops new) <= 20000).
Proof.
  split.
  - intros a c. unfold parmWaitTime. cbn. split; [|reflexivity].
    destruct (20000 <? match a with Some v => v | None => gWaitTime c end) eqn:Hv; [lia|].
    apply Z.ltb_ge in Hv. exact Hv.
  - intros ops. unfold performAll.
    assert (Hgen : forall c, gWaitTime c <= 20000 ->
                             gWaitTime (fold_left perform ops c) <= 20000).
    { induction ops as [|op ops IH]; intros c Hc; [exact Hc|].
      cbn. apply IH. apply perform_keeps_cap. exact Hc. }
    apply Hgen. cbn. lia.
Qed.

(** X21: the parm methods read back what they wrote: after
    [parmWaitTime(v)] a call without argument returns the smaller of [v]
    and 20000 (a negative [v] is kept as it is), after [parmInfoText(s)]
    it returns [s]; a call without argument changes nothing on a contract
    within the cap, and neither method touches the other field. *)
Theorem parm_methods_read_back v s c :
  fst (parmWaitTime None (snd (parmWaitTime (Some v) c))) = Z.min v 20000 /\
  fst (parmInfoText None (snd (parmInfoText (Some s) c))) = s /\
  gInfoText (snd (parmWaitTime (Some v) c)) = gInfoText c /\
  gWaitTime (snd (parmInfoText (Some s) c)) = gWaitTime c /\
  snd (parmInfoText None c) = c /\
  (gWaitTime c <= 20000 -> parmWaitTime None c = (gWaitTime c, c)).
Proof.
  unfold parmWaitTime, parmInfoText. cbn.
  split; [|split; [reflexivity|split; [reflexivity|split; [reflexivity|split]]]].
  - destruct (20000 <? v) eqn:Hv; cbn.
    + apply Z.ltb_lt in Hv. lia.
    + apply Z.ltb_ge in Hv. destruct (20000 <? v) eqn:Hv'; [apply Z.ltb_lt in Hv'; lia|lia].
  - destruct c; reflexivity.
  - intros Hc. destruct (20000 <? gWaitTime c) eqn:Hv; [apply Z.ltb_lt in Hv; lia|].
    destruct c; reflexivity.
Qed.

End SunSimpleFacts.

Lemma parm_methods_read_back_witness :
  SunSimple.parmWaitTime None (SunSimple.initialize SunSimple.new)
  = (5000%Z, SunSimple.initialize SunSimple.new).
Proof.
  apply (parm_methods_read_back 0%Z "" (SunSimple.initialize SunSimple.new)).
  cbn. lia.
Defined.

(** ** The loop over the messages *)

(** X22: the retrieval is decided by the latest message with role "user"
    and content alone: on two conversations that agree on it (or that
    both have none) the loop makes the same calls in the same world and
    ends the same way, whatever else the conversations hold. *)
Theorem retrieval_depends_on_latest_user_message_only
        `{Collaborators} integrationID apiToken msgs1 msgs2 m :
  latest_user_message msgs1 = latest_user_message msgs2 ->
  scanMessages integrationID apiToken (rev msgs1) m
  = scanMessages integrationID apiToken (rev msgs2) m.
Proof.
  unfold latest_user_message. intros Hsame.
  rewrite !scanMessages_run, Hsame. reflexivity.
Qed.

(** ** Closed instances of the further properties *)

Lemma retrieval_depends_witness :
  @scanMessages _ (Sim.collaborators Sim.one_document) "id" "tok"
    (rev (Messages Sim.conversation)) (Sim.start Sim.one_document Sim.accept_all)
  = @scanMessages _ (Sim.collaborators Sim.one_document) "id" "tok"
      (rev [{| Role := "system"; Content := "be brief" |}; Sim.user "c"])
      (Sim.start Sim.one_document Sim.accept_all).
Proof.
  apply (@retrieval_depends_on_latest_user_message_only _
           (Sim.collaborators Sim.one_document) "id" "tok").
  reflexivity.
Defined.

Lemma generateCompletion_errors_witness :
  exists c,
    readDirError (errors_New "open data: no such file or directory")
    = fmt_Errorf_w
        ("error reading files from " +++ dquote +++ "data" +++ dquote +++ " directory: %w") c.
Proof.
  destruct (@generateCompletion_errors _ (Sim.collaborators Sim.no_data_directory)
              "id" "tok" (Some Sim.conversation)
              (Sim.start Sim.no_data_directory Sim.accept_all)
              (readDirError (errors_New "open data: no such file or directory"))
              (snd (fst Scenario.first_request)) (snd Scenario.first_request) eq_refl)
    as [Hc|Hrest]; [exact Hc|].
  exfalso.
  destruct Hrest as [(c & Hc)|[(c & Hc)|[Hc|[(c & Hc)|[(c & Hc)|[(c & Hc)|[(c & Hc)|
                    [(c & Hc)|(c & Hc & _)]]]]]]]];
    vm_compute in Hc; discriminate Hc.
Defined.

Lemma nothing_written_witness :
  written (snd Scenario.first_request) = [].
Proof.
  apply (@nothing_written_before_completion_call _
           (Sim.collaborators Sim.no_data_directory) "id" "tok" (Some Sim.conversation)
           (Sim.start Sim.no_data_directory Sim.accept_all)).
  reflexivity.
Defined.

Lemma outbound_calls_credentials_witness :
  made_with "id" "tok"
    (EvChatCompletions "copilot-chat" "tok"
       (forwarded Sim.conversation [systemMessage (Sim.bs "Batch Job Template")])).
Proof.
  apply (@outbound_calls_credentials _ (Sim.collaborators Sim.one_document)
           "id" "tok" (Some Sim.conversation) (Sim.start Sim.one_document Sim.accept_all)).
  vm_compute. do 5 right. left. reflexivity.
Defined.

Lemma stream_closed_once_witness :
  exists t',
    snd (@generateCompletion _ (Sim.collaborators Sim.caller_disconnects) "id" "tok"
           (Some Sim.conversation) (Sim.start Sim.caller_disconnects Sim.accept_all))
    = t' ++ [EvClose] /\
    closes t' = [].
Proof.
  apply (proj1 (@stream_closed_once _ (Sim.collaborators Sim.caller_disconnects)
                  "id" "tok" (Some Sim.conversation)
                  (Sim.start Sim.caller_disconnects Sim.accept_all)
                  (Err (delimiterError (errors_New "write: broken pipe"))) _ _ eq_refl)).
  right. eexists. split; [reflexivity|]. left.
  exists (errors_New "write: broken pipe"). right. reflexivity.
Defined.

Lemma failed_generation_witness :
  @generateCompletion _ (Cover.keeps_partial_build Cover.half_readable) "id" "tok"
    (Some Sim.conversation) Cover.fresh_partial
  = (Err (fmt_Errorf_w "error generating datasets: %w"
            (errors_New "open data/ghost.md: no such file or directory")),
     Cover.after_partial_build,
     [EvReadDir "data";
      EvGenerateDatasets "id" "tok" ["data/batch.md"%string; "data/ghost.md"%string]]).
Proof.
  apply (@failed_generation_keeps_returned_datasets _
           (Cover.keeps_partial_build Cover.half_readable) "id" "tok"
           (Some Sim.conversation) Cover.fresh_partial
           ["batch.md"%string; "ghost.md"%string] 0 [Cover.batch_dataset] _ 0);
    reflexivity.
Defined.

(** The corpus kept from the failed build is the one the next request
    retrieves from: the service that held no dataset now holds one, and
    its document is put before the completion service. *)
Example kept_datasets_are_served :
  datasets (service Cover.fresh_partial) = [] /\
  datasets (service Cover.after_partial_build) = [Cover.batch_dataset] /\
  chat_calls
    (snd (@generateCompletion _ (Cover.keeps_partial_build Cover.half_readable) "id" "tok"
            (Some Sim.conversation) Cover.after_partial_build))
  = [forwarded Sim.conversation [systemMessage (Sim.bs "Batch Job Template")]].
Proof. repeat split; vm_compute; reflexivity. Qed.

Lemma null_body_witness :
  @ChatCompletion _ (Sim.collaborators Sim.one_document) Scenario.null_request
    (Sim.start Sim.one_document Sim.accept_all)
  = (Panic,
     @mk_Machine _ (Sim.collaborators Sim.one_document)
       (@mk_Service _ (Sim.collaborators Sim.one_document) Sim.accept_all
          [Cover.batch_dataset] true)
       0,
     [EvUnmarshal (Sim.bs "null");
      EvReadDir "data";
      EvGenerateDatasets "id" "tok" ["data/batch.md"%string]]).
Proof.
  destruct (@null_body_panics_after_ensure_step _ (Sim.collaborators Sim.one_document)
              Scenario.null_request (Sim.start Sim.one_document Sim.accept_all)
              (Sim.bs "null") eq_refl eq_refl eq_refl)
    as (err & m1 & t1 & Hinit & Hrun & _).
  rewrite Hrun.
  assert (Hbuild :
    @datasetsInit_Do _ (Sim.collaborators Sim.one_document) "id" "tok"
      (Sim.start Sim.one_document Sim.accept_all)
    = (Ok None,
       @mk_Machine _ (Sim.collaborators Sim.one_document)
         (@mk_Service _ (Sim.collaborators Sim.one_document) Sim.accept_all
            [Cover.batch_dataset] true) 0,
       [EvReadDir "data"; EvGenerateDatasets "id" "tok" ["data/batch.md"%string]]))
    by reflexivity.
  change (integrationID_of Scenario.null_request) with "id"%string in Hinit.
  change (apiToken_of Scenario.null_request) with "tok"%string in Hinit.
  rewrite Hbuild in Hinit.
  injection Hinit as <- <- <-.
  reflexivity.
Defined.

Lemma no_dataset_selected_witness :
  chat_calls
    (snd (@generateCompletion _ (Sim.collaborators Cover.empty_directory) "id" "tok"
            (Some Sim.conversation) (Sim.start Cover.empty_directory Sim.accept_all)))
  = [{| CC_Messages := Messages Sim.conversation;
        CC_Model := "gpt-4o"%string;
        CC_Stream := true |}] /\
  filter is_retrieval
    (snd (@generateCompletion _ (Sim.collaborators Cover.empty_directory) "id" "tok"
            (Some Sim.conversation) (Sim.start Cover.empty_directory Sim.accept_all)))
  = [EvCreate "id" "tok" "c"].
Proof.
  eapply (@no_dataset_selected_forwards_unchanged _
            (Sim.collaborators Cover.empty_directory) "id" "tok" Sim.conversation
            (Sim.start Cover.empty_directory Sim.accept_all) _ _ (Sim.user "c"));
    reflexivity.
Defined.

Lemma retrieval_steps_witness :
  filter is_retrieval
    (snd (@generateCompletion _ (Sim.collaborators Sim.one_document) "id" "tok"
            (Some Sim.conversation) (Sim.start Sim.one_document Sim.accept_all)))
  = [EvCreate "id" "tok" "c"; EvOpen "data/batch.md"; EvReadAll].
Proof.
  eapply (@retrieval_steps_in_order _ (Sim.collaborators Sim.one_document)
            "id" "tok" Sim.conversation (Sim.start Sim.one_document Sim.accept_all)
            _ _ (Sim.user "c") _ _ ("data/batch.md"%string, _) _ _
            (Sim.bs "Batch Job Template"));
    reflexivity.
Defined.

Lemma relay_stops_witness :
  exists t' buf n,
    snd (@relay _ (Sim.collaborators Sim.caller_disconnects)
           (Sim.cfg_stream Sim.caller_disconnects)
           (Sim.start Sim.caller_disconnects Sim.accept_all))
    = t' ++ [EvWrite buf n (Some (errors_New "write: broken pipe"))] /\
    failed_write t' = None /\
    (fst (fst (@relay _ (Sim.collaborators Sim.caller_disconnects)
                 (Sim.cfg_stream Sim.caller_disconnects)
                 (Sim.start Sim.caller_disconnects Sim.accept_all)))
     = Err (fmt_Errorf_w "failed to write to stream: %w" (errors_New "write: broken pipe")) \/
     fst (fst (@relay _ (Sim.collaborators Sim.caller_disconnects)
                 (Sim.cfg_stream Sim.caller_disconnects)
                 (Sim.start Sim.caller_disconnects Sim.accept_all)))
     = Err (fmt_Errorf_w "failed to write delimiter to stream: %w"
              (errors_New "write: broken pipe"))).
Proof.
  apply (@relay_stops_at_first_failed_write _ (Sim.collaborators Sim.caller_disconnects)
           (Sim.cfg_stream Sim.caller_disconnects)
           (Sim.start Sim.caller_disconnects Sim.accept_all)).
  reflexivity.
Defined.

Lemma callers_build_once_witness :
  exists errs m' t,
    @callers _ (Sim.collaborators Sim.one_document)
      [("id-1", "tok-1"); ("id-2", "tok-2")]%string
      (Sim.start Sim.one_document Sim.accept_all) = (Ok errs, m', t) /\
    List.length errs = 2 /\
    (t = [EvReadDir "data"] \/
     exists filenames, t = [EvReadDir "data"; EvGenerateDatasets "id-1" "tok-1" filenames]).
Proof.
  apply (@callers_build_once _ (Sim.collaborators Sim.one_document) "id-1" "tok-1"
           [("id-2", "tok-2")]%string (Sim.start Sim.one_document Sim.accept_all)).
  reflexivity.
Defined.

Lemma callers_share_the_corpus_witness :
  exists m' t,
    @callers _ (Sim.collaborators Sim.one_document)
      [("id-1", "tok-1"); ("id-2", "tok-2")]%string
      (Sim.start Sim.one_document Sim.accept_all) = (Ok [None; None], m', t) /\
    datasets (service m')
    = [("data/batch.md"%string, Sim.embed "Batch Job Template")].
Proof.
  apply (@callers_share_the_corpus _ (Sim.collaborators Sim.one_document) "id-1" "tok-1"
           [("id-2", "tok-2")]%string (Sim.start Sim.one_document Sim.accept_all)
           ["batch.md"%string] 0 _ 0);
    reflexivity.
Defined.

Lemma malformed_body_witness :
  @ChatCompletion _ (Sim.collaborators Sim.one_document) Cover.empty_body_request
    (Sim.start Sim.one_document Sim.accept_all)
  = (Ok tt,
     @mk_Machine _ (Sim.collaborators Sim.one_document)
       (service (Sim.start Sim.one_document Sim.accept_all)) 0,
     [EvUnmarshal []; EvWriteHeader 400]).
Proof.
  apply (@malformed_body_answers_400 _ (Sim.collaborators Sim.one_document)
           Cover.empty_body_request (Sim.start Sim.one_document Sim.accept_all)
           [] None (errors_New "unexpected end of JSON input"));
    reflexivity.
Defined.

Lemma handler_sets_500_witness :
  snd (@ChatCompletion _ (Sim.collaborators Sim.caller_disconnects)
         Scenario.wellformed_request (Sim.start Sim.caller_disconnects Sim.accept_all))
  = EvUnmarshal Scenario.body
      :: snd (@generateCompletion _ (Sim.collaborators Sim.caller_disconnects) "id" "tok"
                (Some Sim.conversation) (Sim.start Sim.caller_disconnects Sim.accept_all))
      ++ [EvWriteHeader 500] /\
  written
    (snd (@ChatCompletion _ (Sim.collaborators Sim.caller_disconnects)
            Scenario.wellformed_request (Sim.start Sim.caller_disconnects Sim.accept_all)))
  = written
      (snd (@generateCompletion _ (Sim.collaborators Sim.caller_disconnects) "id" "tok"
              (Some Sim.conversation) (Sim.start Sim.caller_disconnects Sim.accept_all))) /\
  fst (fst (@ChatCompletion _ (Sim.collaborators Sim.caller_disconnects)
              Scenario.wellformed_request
              (Sim.start Sim.caller_disconnects Sim.accept_all))) = Ok tt.
Proof.
  eapply (@handler_sets_500_after_the_stream _ (Sim.collaborators Sim.caller_disconnects)
            Scenario.wellformed_request (Sim.start Sim.caller_disconnects Sim.accept_all)
            Scenario.body (Some Sim.conversation)
            (delimiterError (errors_New "write: broken pipe")));
    reflexivity.
Defined.

Lemma built_service_witness :
  service (snd (fst (@ChatCompletion _ (Sim.collaborators Sim.one_document)
                       Scenario.wellformed_request Cover.warm)))
  = service Cover.warm /\
  build_calls (snd (@ChatCompletion _ (Sim.collaborators Sim.one_document)
                      Scenario.wellformed_request Cover.warm)) = [].
Proof.
  apply (@built_service_is_frozen _ (Sim.collaborators Sim.one_document)
           Scenario.wellformed_request Cover.warm).
  reflexivity.
Defined.

(** A streamed answer that breaks at the fourth write: the caller has
    the two lines less the last newline, and then the status 500. *)
Example partial_answer_then_500 :
  let run := @ChatCompletion _ (Sim.collaborators Sim.caller_disconnects)
               Scenario.wellformed_request
               (Sim.start Sim.caller_disconnects Sim.accept_all) in
  written (snd run) = Sim.bs "data: one" ++ [newline] ++ Sim.bs "data: two" /\
  statuses (snd run) = [500%Z] /\
  last (snd run) EvClose = EvWriteHeader 500.
Proof. repeat split; vm_compute; reflexivity. Qed.
